(** * Tweets-Monitor: the desktop monitor ([tweet_monitor_gui.pyw])

    A shallow embedding of [MonitorGUI]: its fields, the three button
    callbacks ([start], [stop], [count_range]), the queue drain that runs on
    the Tk thread, and the two kinds of background threads ([_poll_loop] and
    the range [worker]).  Every callback runs to completion on the Tk main
    thread, so a callback is one atomic transition of the world; a background
    thread is cut at its blocking calls (the API fetch, [time.sleep]) and the
    answer of the external API is carried by the transition that consumes it. *)

From Stdlib Require Import ZArith Lia Bool Ascii String.
From stdpp Require Import base gmap sets list strings sorting pretty.

Local Open Scope Z_scope.

(** ** Python values and helpers *)

(** [datetime]: a naive [datetime.datetime] (what [datetime.now()] and
    [strptime] build), as the number of microseconds since a midnight epoch;
    comparison of naive datetimes is the comparison of these numbers. *)
Abbreviation datetime := Z.

Definition microseconds_per_day : Z := 86400 * 1000000.

(** [now.replace(hour=0, minute=0, second=0, microsecond=0)] *)
Definition replace_midnight (now : datetime) : datetime :=
  now - now mod microseconds_per_day.

(** The values found in the dict returned by [get_user_info]. *)
Inductive pyval : Type :=
  | PyNone
  | PyStr (s : string)
  | PyInt (n : Z).

(** Python truthiness ([if not self.user_id]). *)
Definition truthy (v : pyval) : bool :=
  match v with
  | PyNone => false
  | PyStr s => negb (String.eqb s "")
  | PyInt n => negb (n =? 0)
  end.

(** A Python dict with string keys. *)
Abbreviation pydict := (gmap string pyval).

(** [d.get(k)]: [None] when the key is absent. *)
Definition dict_get (d : pydict) (k : string) : pyval :=
  default PyNone (d !! k).

(** [d.get(k, dflt)] *)
Definition dict_get_default (d : pydict) (k : string) (dflt : pyval) : pyval :=
  default dflt (d !! k).

(** Truthiness of an [Optional[dict]]: [None] and the empty dict are falsy. *)
Definition dict_truthy (info : option pydict) : bool :=
  match info with
  | None => false
  | Some d => negb (bool_decide (d = ∅))
  end.

(** [str.isspace] on the code points below 256. *)
Definition isspace (c : ascii) : bool :=
  let n := nat_of_ascii c in
  ((9 <=? n)%nat && (n <=? 13)%nat) || ((28 <=? n)%nat && (n <=? 32)%nat)
  || (n =? 133)%nat || (n =? 160)%nat.

Fixpoint lstrip_with (p : ascii -> bool) (s : string) : string :=
  match s with
  | EmptyString => EmptyString
  | String c s' => if p c then lstrip_with p s' else s
  end.

Fixpoint string_rev (s : string) : string :=
  match s with
  | EmptyString => EmptyString
  | String c s' => String.append (string_rev s') (String c EmptyString)
  end.

Definition rstrip_with (p : ascii -> bool) (s : string) : string :=
  string_rev (lstrip_with p (string_rev s)).

(** [s.strip()] *)
Definition strip (s : string) : string :=
  rstrip_with isspace (lstrip_with isspace s).

(** [s.lstrip(chars)] for a one-character [chars]. *)
Definition lstrip_char (c : ascii) (s : string) : string :=
  lstrip_with (Ascii.eqb c) s.

(** [s.replace(a, b)] for one-character [a] and [b]. *)
Fixpoint replace_char (a b : ascii) (s : string) : string :=
  match s with
  | EmptyString => EmptyString
  | String c s' => String (if Ascii.eqb c a then b else c) (replace_char a b s')
  end.

(** [x or y] on strings. *)
Definition str_or (x y : string) : string :=
  if String.eqb x "" then y else x.

Definition digit_value (c : ascii) : option Z :=
  let n := nat_of_ascii c in
  if ((48 <=? n)%nat && (n <=? 57)%nat) then Some (Z.of_nat n - 48) else None.

(** The digits of an integer literal: single underscores are allowed between
    digits, nowhere else.  [prev] tells whether the previous character was a
    digit. *)
Fixpoint int_digits (s : string) (acc : Z) (prev : bool) : option Z :=
  match s with
  | EmptyString => if prev then Some acc else None
  | String c s' =>
      match digit_value c with
      | Some d => int_digits s' (10 * acc + d) true
      | None =>
          if Ascii.eqb c "_" then (if prev then int_digits s' acc false else None)
          else None
      end
  end.

(** [int(s)] on a string; [None] stands for [ValueError]. *)
Definition int_of_str (s : string) : option Z :=
  match strip s with
  | String "-" s' => Z.opp <$> int_digits s' 0 false
  | String "+" s' => int_digits s' 0 false
  | s' => int_digits s' 0 false
  end.

(** ** The collaborators imported from [tweet_monitor] *)

Inductive tweet_kind : Type := original | reply | repost.

(** [Tweet]: the class is imported from [tweet_monitor]; these are the
    attributes the monitor reads.  [created_at] is a naive datetime, like the
    [datetime.now()] it is compared with. *)
Record Tweet : Type := mkTweet {
  id : string;
  created_at : datetime;
  kind : tweet_kind;
  text : string;
  retweet_count : Z;
  like_count : Z;
  reply_count : Z;
}.

(** [TwitterAPI]: the only attribute read is [demo_mode]; what its methods
    return is decided outside the program and reaches the model with the
    transition that makes the call. *)
Record TwitterAPI : Type := mkAPI {
  demo_mode : bool;
}.

(** The result of a call that may raise: [inl] carries [str(e)]. *)
Abbreviation raises A := (string + A)%type.

(** The two parsers of the [datetime] module used by [parse_dt]; [None]
    stands for [ValueError]. *)
Record DatetimeLib : Type := mkDatetimeLib {
  strptime : string -> string -> option datetime;
  fromisoformat : string -> option datetime;
}.

(** [parse_dt] *)
Definition parse_dt (lib : DatetimeLib) (value : string) : option datetime :=
  let v := strip (str_or value "") in
  if String.eqb v "" then None
  else
    let v2 := replace_char "T" " " v in
    match strptime lib v2 "%Y-%m-%d %H:%M:%S" with
    | Some d => Some d
    | None =>
        match strptime lib v2 "%Y-%m-%d %H:%M" with
        | Some d => Some d
        | None => fromisoformat lib v
        end
    end.

(** ** Events on [self._q] *)

(** The dicts put on the queue, by their ["type"] key:
    [{"type": "update", "now", "tweets", "new", "today", "period", "info"}],
    [{"type": "range", "count"}] and [{"type": "error", "error"}]. *)
Inductive msg : Type :=
  | MsgUpdate (now : datetime) (tweets new : list Tweet) (today period : Z)
              (info : option pydict)
  | MsgRange (count : Z)
  | MsgError (error : string).

(** ** Widgets *)

Inductive btn_state : Type := normal | disabled.

(** Calls to [tkinter.messagebox]. *)
Inductive dialog : Type :=
  | showerror (title message : string)
  | showinfo (title message : string).

(** The lines written by [_log_line], by call site (the clock prefix and the
    rendering of the values are Tk's). *)
Inductive log_line : Type :=
  | Log_ready
  | Log_connected (username : string)
  | Log_stopped
  | Log_counting (range_start range_end : datetime)
  | Log_range_count (count : option Z)
  | Log_error (error : string)
  | Log_new (t : Tweet).

(** The text of [range_var]: ["Range count: -"], ["Range count: ..."] or
    ["Range count: {n}"]. *)
Inductive range_label : Type :=
  | Range_dash
  | Range_dots
  | Range_value (count : option Z).

Inductive mode_label : Type :=
  | Mode_not_connected
  | Mode_demo
  | Mode_live.

Record Widgets : Type := mkWidgets {
  mode_var : mode_label;
  username_var : string;
  interval_var : string;
  range_start_var : string;
  range_end_var : string;
  start_btn : btn_state;
  stop_btn : btn_state;
  total_var : option pyval;
  today_var : option Z;
  period_var : option Z;
  followers_var : option pyval;
  following_var : option pyval;
  last_update_var : option datetime;
  range_var : range_label;
  tree : list Tweet;
  log : list log_line;
}.

(** ** Threads *)

(** Where a [_poll_loop] thread stands. *)
Inductive poll_pc : Type :=
  | At_assert            (* started, before [assert self.api and self.user_id] *)
  | At_while             (* about to test [while self.running] *)
  | In_tick              (* inside [try]: the fetch is in flight *)
  | In_sleep (k : nat)   (* [k] iterations of the sleep loop remain *)
  | Poll_returned.       (* [_poll_loop] returned or died *)

#[global] Instance poll_pc_eq_dec : EqDecision poll_pc.
Proof. solve_decision. Defined.

Record poll_thread : Type := mkPoll {
  poll_username : string;
  poll_interval : Z;
  poll_cycle : Z;
  poll_at : poll_pc;
}.

(** A range [worker] thread with the [start] and [end] its closure holds. *)
Record range_thread : Type := mkRange {
  worker_start : datetime;
  worker_end : datetime;
  worker_alive : bool;
}.

Inductive thread : Type :=
  | Poll (p : poll_thread)
  | Range (r : range_thread).

(** [Thread.is_alive()] *)
Definition is_alive (t : thread) : bool :=
  match t with
  | Poll p => match poll_at p with Poll_returned => false | _ => true end
  | Range r => worker_alive r
  end.

(** ** The object and the world around it *)

Record MonitorGUI : Type := mkGUI {
  api : option TwitterAPI;
  user_id : pyval;
  running : bool;
  monitoring_start : option datetime;
  range_count : option Z;
  _tweet_ids : gset string;
  _poll_thread : option nat;
  _range_thread : option nat;
  _q : list msg;
  ui : Widgets;
}.

(** The process: the object, the threads started so far (a thread is named by
    its position) and the message boxes shown so far. *)
Record World : Type := mkWorld {
  self : MonitorGUI;
  threads : list thread;
  dialogs : list dialog;
}.

(** *** Field assignment *)

Definition set_api (v : option TwitterAPI) (g : MonitorGUI) : MonitorGUI :=
  mkGUI v (user_id g) (running g) (monitoring_start g) (range_count g)
        (_tweet_ids g) (_poll_thread g) (_range_thread g) (_q g) (ui g).

Definition set_user_id (v : pyval) (g : MonitorGUI) : MonitorGUI :=
  mkGUI (api g) v (running g) (monitoring_start g) (range_count g)
        (_tweet_ids g) (_poll_thread g) (_range_thread g) (_q g) (ui g).

Definition set_running (v : bool) (g : MonitorGUI) : MonitorGUI :=
  mkGUI (api g) (user_id g) v (monitoring_start g) (range_count g)
        (_tweet_ids g) (_poll_thread g) (_range_thread g) (_q g) (ui g).

Definition set_monitoring_start (v : option datetime) (g : MonitorGUI) : MonitorGUI :=
  mkGUI (api g) (user_id g) (running g) v (range_count g)
        (_tweet_ids g) (_poll_thread g) (_range_thread g) (_q g) (ui g).

Definition set_range_count (v : option Z) (g : MonitorGUI) : MonitorGUI :=
  mkGUI (api g) (user_id g) (running g) (monitoring_start g) v
        (_tweet_ids g) (_poll_thread g) (_range_thread g) (_q g) (ui g).

Definition set_tweet_ids (v : gset string) (g : MonitorGUI) : MonitorGUI :=
  mkGUI (api g) (user_id g) (running g) (monitoring_start g) (range_count g)
        v (_poll_thread g) (_range_thread g) (_q g) (ui g).

Definition set_poll_thread (v : option nat) (g : MonitorGUI) : MonitorGUI :=
  mkGUI (api g) (user_id g) (running g) (monitoring_start g) (range_count g)
        (_tweet_ids g) v (_range_thread g) (_q g) (ui g).

Definition set_range_thread (v : option nat) (g : MonitorGUI) : MonitorGUI :=
  mkGUI (api g) (user_id g) (running g) (monitoring_start g) (range_count g)
        (_tweet_ids g) (_poll_thread g) v (_q g) (ui g).

Definition set_q (v : list msg) (g : MonitorGUI) : MonitorGUI :=
  mkGUI (api g) (user_id g) (running g) (monitoring_start g) (range_count g)
        (_tweet_ids g) (_poll_thread g) (_range_thread g) v (ui g).

Definition set_ui (v : Widgets) (g : MonitorGUI) : MonitorGUI :=
  mkGUI (api g) (user_id g) (running g) (monitoring_start g) (range_count g)
        (_tweet_ids g) (_poll_thread g) (_range_thread g) (_q g) v.

Definition set_mode_var (v : mode_label) (u : Widgets) : Widgets :=
  mkWidgets v (username_var u) (interval_var u) (range_start_var u)
    (range_end_var u) (start_btn u) (stop_btn u) (total_var u) (today_var u)
    (period_var u) (followers_var u) (following_var u) (last_update_var u)
    (range_var u) (tree u) (log u).

Definition set_entries (username interval range_start range_end : string)
    (u : Widgets) : Widgets :=
  mkWidgets (mode_var u) username interval range_start range_end
    (start_btn u) (stop_btn u) (total_var u) (today_var u)
    (period_var u) (followers_var u) (following_var u) (last_update_var u)
    (range_var u) (tree u) (log u).

Definition set_buttons (start_state stop_state : btn_state) (u : Widgets) : Widgets :=
  mkWidgets (mode_var u) (username_var u) (interval_var u) (range_start_var u)
    (range_end_var u) start_state stop_state (total_var u) (today_var u)
    (period_var u) (followers_var u) (following_var u) (last_update_var u)
    (range_var u) (tree u) (log u).

Definition set_account_vars (total followers following : option pyval)
    (u : Widgets) : Widgets :=
  mkWidgets (mode_var u) (username_var u) (interval_var u) (range_start_var u)
    (range_end_var u) (start_btn u) (stop_btn u) total (today_var u)
    (period_var u) followers following (last_update_var u)
    (range_var u) (tree u) (log u).

Definition set_tick_vars (today period : option Z) (last_update : option datetime)
    (u : Widgets) : Widgets :=
  mkWidgets (mode_var u) (username_var u) (interval_var u) (range_start_var u)
    (range_end_var u) (start_btn u) (stop_btn u) (total_var u) today
    period (followers_var u) (following_var u) last_update
    (range_var u) (tree u) (log u).

Definition set_range_var (v : range_label) (u : Widgets) : Widgets :=
  mkWidgets (mode_var u) (username_var u) (interval_var u) (range_start_var u)
    (range_end_var u) (start_btn u) (stop_btn u) (total_var u) (today_var u)
    (period_var u) (followers_var u) (following_var u) (last_update_var u)
    v (tree u) (log u).

Definition set_tree (v : list Tweet) (u : Widgets) : Widgets :=
  mkWidgets (mode_var u) (username_var u) (interval_var u) (range_start_var u)
    (range_end_var u) (start_btn u) (stop_btn u) (total_var u) (today_var u)
    (period_var u) (followers_var u) (following_var u) (last_update_var u)
    (range_var u) v (log u).

Definition set_log (v : list log_line) (u : Widgets) : Widgets :=
  mkWidgets (mode_var u) (username_var u) (interval_var u) (range_start_var u)
    (range_end_var u) (start_btn u) (stop_btn u) (total_var u) (today_var u)
    (period_var u) (followers_var u) (following_var u) (last_update_var u)
    (range_var u) (tree u) v.

Definition set_self (g : MonitorGUI) (w : World) : World :=
  mkWorld g (threads w) (dialogs w).

(** [messagebox.showerror(..)] / [messagebox.showinfo(..)] *)
Definition messagebox (d : dialog) (w : World) : World :=
  mkWorld (self w) (threads w) (dialogs w ++ [d]).

(** [threading.Thread(target=.., daemon=True)] followed by [.start()]. *)
Definition spawn (t : thread) (w : World) : World :=
  mkWorld (self w) (threads w ++ [t]) (dialogs w).

Definition set_thread (tid : nat) (t : thread) (w : World) : World :=
  mkWorld (self w) (<[tid := t]> (threads w)) (dialogs w).

(** [self._q.put(m)] *)
Definition q_put (m : msg) (g : MonitorGUI) : MonitorGUI :=
  set_q (_q g ++ [m]) g.

(** [_log_line] *)
Definition _log_line (l : log_line) (g : MonitorGUI) : MonitorGUI :=
  set_ui (set_log (log (ui g) ++ [l]) (ui g)) g.

(** ** [__init__] and [_build_ui] *)

Definition initial_widgets (getenv : string -> option string) : Widgets :=
  mkWidgets Mode_not_connected
    (default "elonmusk" (getenv "MONITOR_USERNAME"))
    (default "60" (getenv "UPDATE_INTERVAL"))
    (default "" (getenv "RANGE_START"))
    (default "" (getenv "RANGE_END"))
    normal disabled None None None None None None Range_dash [] [Log_ready].

Definition MonitorGUI_init (getenv : string -> option string) : World :=
  mkWorld
    (mkGUI None PyNone false None None ∅ None None [] (initial_widgets getenv))
    [] [].

(** ** [start] and [stop] *)

(** What the outside world answers during one call of [start]. *)
Record start_env : Type := mkStartEnv {
  new_api : raises TwitterAPI;              (* [TwitterAPI()] *)
  start_user_info : raises (option pydict); (* [self.api.get_user_info(username)] *)
  start_now : datetime;                     (* [datetime.now()] *)
}.

(** The second [try] block of [start]: the object as the block left it, and
    [str(e)] when it raised. *)
Definition start_connect (e : start_env) (username : string) (g : MonitorGUI)
    : MonitorGUI * option string :=
  match new_api e with
  | inl err => (g, Some err)
  | inr a =>
      let g := set_api (Some a) g in
      match start_user_info e with
      | inl err => (g, Some err)
      | inr info =>
          let g := set_user_id
                     (if dict_truthy info then dict_get (default ∅ info) "id"
                      else PyNone) g in
          if negb (truthy (user_id g)) then (g, Some "Could not fetch user info.")
          else
            let g := set_monitoring_start (Some (start_now e)) g in
            let g := set_tweet_ids ∅ g in
            let g := set_range_count None g in
            let g := set_ui (set_mode_var
                               (if demo_mode a then Mode_demo else Mode_live)
                               (ui g)) g in
            let g := _log_line (Log_connected username) g in
            (g, None)
      end
  end.

Definition start (e : start_env) (w : World) : World :=
  let g := self w in
  if running g then w
  else
    let username := lstrip_char "@" (strip (username_var (ui g))) in
    if String.eqb username "" then
      messagebox (showerror "Missing username"
                            "Please enter a username to monitor.") w
    else
      match int_of_str (str_or (strip (interval_var (ui g))) "60") with
      | None =>
          messagebox (showerror "Invalid interval"
                                "Interval must be a number (seconds).") w
      | Some n =>
          let interval := Z.max 5 n in
          match start_connect e username g with
          | (g, Some err) =>
              messagebox (showerror "Failed to start" err) (set_self g w)
          | (g, None) =>
              let g := set_running true g in
              let g := set_ui (set_buttons disabled normal (ui g)) g in
              let g := set_poll_thread (Some (length (threads w))) g in
              spawn (Poll (mkPoll username interval 0 At_assert)) (set_self g w)
          end
      end.

Definition stop (w : World) : World :=
  let g := self w in
  if negb (running g) then w
  else
    let g := set_running false g in
    let g := set_ui (set_buttons normal disabled (ui g)) g in
    let g := _log_line Log_stopped g in
    set_self g w.

(** ** [_poll_loop] *)

(** The loop over [tweets] that fills [new] and [self._tweet_ids]. *)
Definition observe_step (acc : list Tweet * gset string) (t : Tweet)
    : list Tweet * gset string :=
  if decide (id t ∈ acc.2) then acc
  else (acc.1 ++ [t], acc.2 ∪ {[ id t ]}).

Definition observe (ids : gset string) (tweets : list Tweet)
    : list Tweet * gset string :=
  fold_left observe_step tweets ([], ids).

(** [sum(1 for t in tweets if t.created_at >= bound)] *)
Definition count_since (tweets : list Tweet) (bound : datetime) : Z :=
  fold_left (fun acc t => if bound <=? created_at t then acc + 1 else acc)
            tweets 0.

(** [(cycle % max(1, int(300 / max(1, interval)))) == 0 or cycle == 1];
    the quotient is positive, so [int] of the float quotient is the floor. *)
Definition refresh_due (cycle interval : Z) : bool :=
  (cycle mod Z.max 1 (300 / Z.max 1 interval) =? 0) || (cycle =? 1).

(** What the outside world answers during one tick. *)
Record tick_env : Type := mkTickEnv {
  recent_tweets : raises (list Tweet);  (* [get_recent_tweets(self.user_id, 20)] *)
  user_info : raises (option pydict);   (* [get_user_info(username)], when called *)
  tick_now : datetime;                  (* [datetime.now()] *)
}.

(** The [try]/[except] of one tick. *)
Definition poll_try (e : tick_env) (p : poll_thread) (g : MonitorGUI) : MonitorGUI :=
  match api g with
  | None =>
      q_put (MsgError "'NoneType' object has no attribute 'get_recent_tweets'") g
  | Some _ =>
      match recent_tweets e with
      | inl err => q_put (MsgError err) g
      | inr tweets =>
          match (if refresh_due (poll_cycle p) (poll_interval p)
                 then user_info e else inr None) with
          | inl err => q_put (MsgError err) g
          | inr info =>
              let now := tick_now e in
              let today_start := replace_midnight now in
              let monitoring_start := default now (monitoring_start g) in
              let '(new, ids) := observe (_tweet_ids g) tweets in
              let g := set_tweet_ids ids g in
              let today_count := count_since tweets today_start in
              let period_count := count_since tweets monitoring_start in
              q_put (MsgUpdate now tweets new today_count period_count info) g
          end
      end
  end.

Definition poll_goto (pc : poll_pc) (p : poll_thread) : poll_thread :=
  mkPoll (poll_username p) (poll_interval p) (poll_cycle p) pc.

(** One scheduling slice of a poll thread, from where it stands to its next
    blocking point. *)
Definition poll_step (tid : nat) (e : tick_env) (p : poll_thread) (w : World) : World :=
  let g := self w in
  match poll_at p with
  | At_assert =>
      if bool_decide (is_Some (api g)) && truthy (user_id g)
      then set_thread tid (Poll (poll_goto At_while p)) w
      else set_thread tid (Poll (poll_goto Poll_returned p)) w
  | At_while =>
      if running g
      then set_thread tid
             (Poll (mkPoll (poll_username p) (poll_interval p)
                           (poll_cycle p + 1) In_tick)) w
      else set_thread tid (Poll (poll_goto Poll_returned p)) w
  | In_tick =>
      set_thread tid
        (Poll (poll_goto (In_sleep (Z.to_nat (poll_interval p * 10))) p))
        (set_self (poll_try e p g) w)
  | In_sleep O => set_thread tid (Poll (poll_goto At_while p)) w
  | In_sleep (S k) =>
      if negb (running g)
      then set_thread tid (Poll (poll_goto At_while p)) w
      else set_thread tid (Poll (poll_goto (In_sleep k) p)) w
  | Poll_returned => w
  end.

(** ** [count_range] and its [worker] *)

(** [self._range_thread and self._range_thread.is_alive()] *)
Definition range_busy (w : World) : bool :=
  match _range_thread (self w) with
  | None => false
  | Some tid =>
      match threads w !! tid with
      | Some t => is_alive t
      | None => false
      end
  end.

Definition count_range (lib : DatetimeLib) (w : World) : World :=
  let g := self w in
  if negb (bool_decide (is_Some (api g))) || negb (truthy (user_id g)) then
    messagebox (showinfo "Not running"
                  "Start monitoring first (so we know the user id).") w
  else
    match parse_dt lib (range_start_var (ui g)),
          parse_dt lib (range_end_var (ui g)) with
    | Some range_start, Some range_end =>
        if range_end <=? range_start then
          messagebox (showerror "Invalid range"
                        "Range start must be before range end.") w
        else
          let g := set_ui (set_range_var Range_dots (ui g)) g in
          let g := _log_line (Log_counting range_start range_end) g in
          if range_busy w then set_self g w
          else
            let g := set_range_thread (Some (length (threads w))) g in
            spawn (Range (mkRange range_start range_end true)) (set_self g w)
    | _, _ =>
        messagebox (showerror "Invalid range"
          "Enter start/end like '2026-01-26 09:00' and '2026-01-26 18:00'.") w
    end.

(** [worker], given what
    [self.api.count_tweets_in_range(self.user_id, start, end)] did. *)
Definition worker (r : raises Z) (g : MonitorGUI) : MonitorGUI :=
  match r with
  | inr count => q_put (MsgRange count) g
  | inl err => q_put (MsgError err) g
  end.

Definition range_step (tid : nat) (r : raises Z) (t : range_thread) (w : World) : World :=
  if worker_alive t then
    set_thread tid (Range (mkRange (worker_start t) (worker_end t) false))
               (set_self (worker r (self w)) w)
  else w.

(** ** [_drain_queue] and [_apply_update] *)

Fixpoint insert_newest_first (t : Tweet) (l : list Tweet) : list Tweet :=
  match l with
  | [] => [t]
  | x :: l' =>
      if created_at t <? created_at x then x :: insert_newest_first t l'
      else t :: l
  end.

(** [sorted(tweets, key=lambda x: x.created_at, reverse=True)]: stable. *)
Definition sorted_newest_first (tweets : list Tweet) : list Tweet :=
  foldr insert_newest_first [] tweets.

Definition _apply_update (now : datetime) (tweets new : list Tweet)
    (today period : Z) (info : option pydict) (g : MonitorGUI) : MonitorGUI :=
  let u := ui g in
  let u :=
    if dict_truthy info then
      let d := default ∅ info in
      set_account_vars (Some (dict_get_default d "tweets" (PyStr "-")))
                       (Some (dict_get_default d "followers" (PyStr "-")))
                       (Some (dict_get_default d "following" (PyStr "-"))) u
    else u in
  let u := set_tick_vars (Some today) (Some period) (Some now) u in
  let u := set_log (log u ++ map Log_new new) u in
  let u := set_tree (take 50 (sorted_newest_first tweets)) u in
  set_ui u g.

(** The body of the [while True] of [_drain_queue] for one message. *)
Definition dispatch (g : MonitorGUI) (m : msg) : MonitorGUI :=
  match m with
  | MsgUpdate now tweets new today period info =>
      _apply_update now tweets new today period info g
  | MsgRange count =>
      let g := set_range_count (Some count) g in
      let g := set_ui (set_range_var (Range_value (range_count g)) (ui g)) g in
      _log_line (Log_range_count (range_count g)) g
  | MsgError err => _log_line (Log_error err) g
  end.

Definition _drain_queue (g : MonitorGUI) : MonitorGUI :=
  set_q [] (fold_left dispatch (_q g) g).

(** ** The process as a transition system *)

(** What can happen next: the user types into the four entries or clicks a
    button, the timer set by [root.after(100, self._drain_queue)] fires, a
    poll thread gets its next slice (the API answering [e] if it asks), or a
    range worker comes back from its API call with [r]. *)
Inductive action : Type :=
  | Edit_entries (username interval range_start range_end : string)
  | Click_start (e : start_env)
  | Click_stop
  | Click_count_range
  | After_drain_queue
  | Poll_thread_runs (tid : nat) (e : tick_env)
  | Range_thread_returns (tid : nat) (r : raises Z).

Definition step (lib : DatetimeLib) (w : World) (a : action) : World :=
  match a with
  | Edit_entries username interval range_start range_end =>
      set_self (set_ui (set_entries username interval range_start range_end
                                    (ui (self w))) (self w)) w
  | Click_start e => start e w
  | Click_stop => stop w
  | Click_count_range => count_range lib w
  | After_drain_queue => set_self (_drain_queue (self w)) w
  | Poll_thread_runs tid e =>
      match threads w !! tid with
      | Some (Poll p) => poll_step tid e p w
      | _ => w
      end
  | Range_thread_returns tid r =>
      match threads w !! tid with
      | Some (Range t) => range_step tid r t w
      | _ => w
      end
  end.

Definition run (lib : DatetimeLib) (w : World) (trace : list action) : World :=
  fold_left (step lib) trace w.

(** ** The range counter behind [count_tweets_in_range] *)

(** Modelled from the spec: [TwitterAPI] and its [count_tweets_in_range]
    are defined in [tweet_monitor.py], of which only the import is known.
    What follows is the Data Source of section 4.1 and the Range Counter of
    section 4.4: [get_posts_page] answers a page of posts, newest first, and
    the cursor of the next page if there is one, or fails with
    [RateLimited(retry_after)] or [TransportError]. *)
Inductive page_result : Type :=
  | Page (posts : list Tweet) (next_cursor : option nat)
  | RateLimited (retry_after : Z)
  | TransportError (message : string).

(** Modelled from the spec: a data source is what [get_posts_page] answers
    to its [n]-th call for a given cursor ([None] asks for the first page). *)
Abbreviation DataSource := (nat -> option nat -> page_result).

(** Modelled from the spec: the simulated source pages through a fixed
    history (newest first) [page_size] posts at a time and never fails; its
    cursor is the offset of the page. *)
Definition simulated_source (history : list Tweet) (page_size : nat) : DataSource :=
  fun _ cursor =>
    let offset := default 0%nat cursor in
    Page (take page_size (drop offset history))
         (if (offset + page_size <? length history)%nat
          then Some (offset + page_size)%nat else None).

(** Modelled from the spec: the number of posts of a sequence whose
    [created_at] falls within the closed interval. *)
Definition posts_in_range (a b : datetime) (posts : list Tweet) : Z :=
  Z.of_nat (length (filter (fun t => a <= created_at t <= b) posts)).

(** Modelled from the spec: "the current page's oldest post has
    [created_at < start]"; pages are newest first. *)
Definition oldest_before (a : datetime) (posts : list Tweet) : bool :=
  match last posts with
  | Some t => created_at t <? a
  | None => false
  end.

(** Modelled from the spec: the paging loop of section 4.4.  A rate-limited
    fetch is retried on the same page, a transport error aborts the count,
    and the loop ends on a page whose oldest post is before [a] or that has
    no next cursor.  [fuel] bounds the number of fetches; [None] means it
    ran out. *)
Fixpoint count_pages (fuel : nat) (src : DataSource) (calls : nat)
    (cursor : option nat) (a b : datetime) (acc : Z) : option (raises Z) :=
  match fuel with
  | O => None
  | S fuel' =>
      match src calls cursor with
      | RateLimited _ => count_pages fuel' src (S calls) cursor a b acc
      | TransportError message => Some (inl message)
      | Page posts next_cursor =>
          let acc := acc + posts_in_range a b posts in
          if oldest_before a posts then Some (inr acc)
          else
            match next_cursor with
            | None => Some (inr acc)
            | Some c => count_pages fuel' src (S calls) (Some c) a b acc
            end
      end
  end.

(** Modelled from the spec: [count_tweets_in_range(user_id, start, end)] on
    the source of that account. *)
Definition count_tweets_in_range (fuel : nat) (src : DataSource)
    (a b : datetime) : option (raises Z) :=
  count_pages fuel src 0 None a b 0.

(** A history is given newest first, with distinct timestamps. *)
Definition newer (x y : Tweet) : Prop := created_at y < created_at x.

(** ** Vocabulary of the statements *)

(** The part of the world that the program reads back: the object and the
    threads.  The list of message boxes is write-only. *)
Definition engine (w : World) : MonitorGUI * list thread := (self w, threads w).

(** The fields that only [start], [stop] and the poll loop assign. *)
Definition session_fields (g : MonitorGUI)
    : option TwitterAPI * pyval * bool * option datetime * gset string
      * option nat * option nat :=
  (api g, user_id g, running g, monitoring_start g, _tweet_ids g,
   _poll_thread g, _range_thread g).

(** The account id that [start] takes from the answer of [get_user_info]. *)
Definition resolved_id (r : raises (option pydict)) : pyval :=
  match r with
  | inl _ => PyNone
  | inr info => if dict_truthy info then dict_get (default ∅ info) "id" else PyNone
  end.


(** A failure of the data source during a tick: [get_recent_tweets] raises,
    or it answers and the refresh of the user info that is due raises. *)
Definition fetch_fails (e : tick_env) (p : poll_thread) (err : string) : Prop :=
  recent_tweets e = inl err
  \/ ((exists tweets, recent_tweets e = inr tweets)
      /\ refresh_due (poll_cycle p) (poll_interval p) = true
      /\ user_info e = inl err).

(** The [n] slices a poll thread gets when nothing else happens and the API
    answers [e] to whatever it asks. *)
Definition poll_alone (tid : nat) (e : tick_env) (n : nat) : list action :=
  replicate n (Poll_thread_runs tid e).

(** Thread [tid] is a range worker that has not returned yet. *)
Definition range_in_flight (w : World) (tid : nat) : Prop :=
  exists r, threads w !! tid = Some (Range r) /\ worker_alive r = true.

(** Every range worker in flight is the one [self._range_thread] names. *)
Definition range_tracked (w : World) : Prop :=
  forall tid, range_in_flight w tid -> _range_thread (self w) = Some tid.

(** The messages a transition puts on the queue: what the queue holds beyond
    its former length (the drain, which only takes, puts nothing). *)
Definition puts (lib : DatetimeLib) (w : World) (a : action) : list msg :=
  match a with
  | After_drain_queue => []
  | _ => drop (length (_q (self w))) (_q (self (step lib w a)))
  end.

(** All the messages put on the queue along a trace, in order. *)
Fixpoint emitted (lib : DatetimeLib) (w : World) (trace : list action) : list msg :=
  match trace with
  | [] => []
  | a :: trace' => puts lib w a ++ emitted lib (step lib w a) trace'
  end.


(** A trace within one session: [start] is not called. *)
Definition one_session (trace : list action) : Prop :=
  Forall (fun a => forall e, a <> Click_start e) trace.


Definition is_update (m : msg) : bool :=
  match m with
  | MsgUpdate _ _ _ _ _ _ => true
  | _ => false
  end.


(** Worker [tid] returns from its call of [count_tweets_in_range] with what
    the call gave; a call that has not returned ([None]) changes nothing. *)
Definition worker_returns (lib : DatetimeLib) (w : World) (tid : nat)
    (result : option (raises Z)) : World :=
  match result with
  | Some r => step lib w (Range_thread_returns tid r)
  | None => w
  end.

(** Some poll thread has been started. *)
Definition has_poll_thread (w : World) : Prop :=
  exists tid p, threads w !! tid = Some (Poll p).

(** Once a poll thread exists, the monitor has a data source and a session
    start. *)
Definition poll_has_session (w : World) : Prop :=
  has_poll_thread w ->
  api (self w) <> None /\ monitoring_start (self w) <> None.

(** ** Sample data *)

(** A [datetime] library that knows two strings, enough to run the model. *)
Definition sample_lib : DatetimeLib :=
  mkDatetimeLib
    (fun v fmt =>
       if String.eqb fmt "%Y-%m-%d %H:%M" then
         if String.eqb v "2026-01-26 09:00" then Some (9 * 3600000000)
         else if String.eqb v "2026-01-26 18:00" then Some (18 * 3600000000)
         else None
       else None)
    (fun _ => None).

Definition sample_tweet (name : string) (at_hour : Z) : Tweet :=
  mkTweet name (at_hour * 3600000000) original "Short update from today." 0 0 0.

Definition sample_getenv (name : string) : option string :=
  if String.eqb name "RANGE_START" then Some "2026-01-26 09:00"
  else if String.eqb name "RANGE_END" then Some "2026-01-26T18:00"
  else if String.eqb name "UPDATE_INTERVAL" then Some " 5 "
  else None.

Definition sample_info : pydict :=
  {[ "id" := PyStr "44196397"; "followers" := PyInt 1000 ]}.

Definition sample_start : start_env :=
  mkStartEnv (inr (mkAPI true)) (inr (Some sample_info)) (8 * 3600000000).

(** A started monitor. *)
Definition sample_running : World :=
  start sample_start (MonitorGUI_init sample_getenv).


Definition sample_idle : World := MonitorGUI_init sample_getenv.

(** The poll thread of [sample_running], once it is inside its first cycle
    with the fetch in flight. *)
Definition sample_poll : poll_thread := mkPoll "elonmusk" 5 1 In_tick.

Definition sample_tweets : list Tweet :=
  [sample_tweet "1003" 7; sample_tweet "1002" 9; sample_tweet "1001" (-2)].

(** A tick that succeeds at ten o'clock. *)
Definition sample_tick : tick_env :=
  mkTickEnv (inr sample_tweets) (inr (Some sample_info)) (10 * 3600000000).

(** A tick whose fetch is refused. *)
Definition sample_tick_failing : tick_env :=
  mkTickEnv (inl "429 Too Many Requests") (inr None) (10 * 3600000000).

Definition sample_in_tick : World :=
  run sample_lib sample_running
      [Poll_thread_runs 0 sample_tick; Poll_thread_runs 0 sample_tick].

(** A history of four posts, newest first. *)
Definition sample_history : list Tweet :=
  [sample_tweet "2004" 19; sample_tweet "2003" 17; sample_tweet "2002" 10;
   sample_tweet "2001" 3].

(** A started monitor whose range entries are in the wrong order. *)
Definition sample_reversed : World :=
  step sample_lib sample_running
       (Edit_entries "elonmusk" "5" "2026-01-26 18:00" "2026-01-26 09:00").



(** Every character of [s] satisfies [p]. *)
Fixpoint string_all (p : ascii -> bool) (s : string) : bool :=
  match s with
  | EmptyString => true
  | String c s' => p c && string_all p s'
  end.


(** How a thread may differ after a transition: it is of the same kind with
    the same arguments (username and interval, or range); a poll thread has
    gone through at most one more cycle; one that had returned is the same. *)
Definition thread_succ (t t' : thread) : Prop :=
  match t, t' with
  | Poll p, Poll p' =>
      poll_username p' = poll_username p
      /\ poll_interval p' = poll_interval p
      /\ poll_cycle p <= poll_cycle p' <= poll_cycle p + 1
      /\ (poll_at p = Poll_returned -> p' = p)
  | Range r, Range r' =>
      worker_start r' = worker_start r
      /\ worker_end r' = worker_end r
      /\ (worker_alive r = false -> worker_alive r' = false)
  | _, _ => False
  end.

(** A thread as the program creates it. *)
Definition fresh_thread (t : thread) : Prop :=
  match t with
  | Poll p => 5 <= poll_interval p /\ poll_cycle p = 0 /\ poll_at p = At_assert
  | Range r => worker_alive r = true /\ worker_start r < worker_end r
  end.


(** The two buttons show the state of the flag: [Start] is disabled and
    [Stop] enabled exactly while [self.running] is set. *)
Definition buttons_match (g : MonitorGUI) : Prop :=
  start_btn (ui g) = (if running g then disabled else normal)
  /\ stop_btn (ui g) = (if running g then normal else disabled).

(** The flag and the state of the two buttons. *)
Definition flag_buttons (g : MonitorGUI) : bool * btn_state * btn_state :=
  (running g, start_btn (ui g), stop_btn (ui g)).


(** The number of slices a poll thread needs at most to return once the flag
    is cleared. *)
Definition slices_to_return (pc : poll_pc) : nat :=
  match pc with
  | In_tick => 3
  | At_assert | In_sleep _ => 2
  | At_while => 1
  | Poll_returned => 0
  end.


(** The message is not a range event. *)
Definition not_range (m : msg) : Prop :=
  match m with
  | MsgRange _ => False
  | _ => True
  end.


(** Rows in display order: no row is older than the one below it. *)
Definition not_older (x y : Tweet) : Prop := created_at y <= created_at x.


(** ** The dashboard ([App.jsx], [useMockData.js]) *)

Module Dashboard.

(** The tweets of the mock feed. *)
Record tweet : Type := mkTweet {
  id : string;
  username : string;
  text : string;
  createdAt : string;
  likes : Z;
  retweets : Z;
}.

(** [new Date(s).getTime()]: the time value in milliseconds, [None] for
    [NaN] (an invalid date).  The parser is the browser's. *)
Abbreviation DateParser := (string -> option Z).

(** [x > y], [x >= y] and [x <= y] on time values: a comparison with [NaN]
    is false. *)
Definition gt (x y : option Z) : bool :=
  match x, y with
  | Some a, Some b => b <? a
  | _, _ => false
  end.

Definition ge (x y : option Z) : bool :=
  match x, y with
  | Some a, Some b => b <=? a
  | _, _ => false
  end.

Definition le (x y : option Z) : bool := ge y x.

(** [clampDateRange]: [None] is [null], the pair is [{start, end}]. *)
Definition clampDateRange (Date : DateParser) (start end_ : string)
    : option (string * string) :=
  let s := Date start in
  let e := Date end_ in
  if negb (bool_decide (is_Some s)) || negb (bool_decide (is_Some e)) then None
  else if gt s e then Some (end_, start)
  else Some (start, end_).

(** The [useMemo] that computes [filteredTweets]. *)
Definition filteredTweets (Date : DateParser) (range : option (string * string))
    (tweets : list tweet) : list tweet :=
  match range with
  | None => []
  | Some (start, end_) =>
      let startMs := Date start in
      let endMs := Date end_ in
      List.filter
        (fun t => let ms := Date (createdAt t) in ge ms startMs && le ms endMs)
        tweets
  end.

(** The updater passed to [setTweets]: [[newTweet, ...prev].slice(0, 50)]. *)
Definition push_tweet (newTweet : tweet) (prev : list tweet) : list tweet :=
  take 50 (newTweet :: prev).

(** One firing of the interval of [useMockData]: [arrival] is the tweet made
    when [Math.random() > 0.6], [None] otherwise. *)
Definition on_interval (prev : list tweet) (arrival : option tweet) : list tweet :=
  match arrival with
  | Some newTweet => push_tweet newTweet prev
  | None => prev
  end.

(** [String(n).padStart(2, '0')] for an integer [n]. *)
Definition pad (n : Z) : string :=
  let s := pretty n in
  match String.length s with
  | O => "00"
  | S O => String.append "0" s
  | _ => s
  end.

(** [toLocalInputValue], given what the getters of the [Date] return:
    [getFullYear()], [getMonth()], [getDate()], [getHours()] and
    [getMinutes()]. *)
Definition toLocalInputValue (fullYear month date hours minutes : Z) : string :=
  String.append (pretty fullYear)
    (String.append "-"
       (String.append (pad (month + 1))
          (String.append "-"
             (String.append (pad date)
                (String.append "T"
                   (String.append (pad hours)
                      (String.append ":" (pad minutes)))))))).

End Dashboard.


(** The messages the drains of a trace take off the queue, in order. *)
Fixpoint drained (lib : DatetimeLib) (w : World) (trace : list action) : list msg :=
  match trace with
  | [] => []
  | a :: trace' =>
      match a with
      | After_drain_queue => _q (self w)
      | _ => []
      end ++ drained lib (step lib w a) trace'
  end.


(** ** Sample data for the further properties *)

(** The monitor after its first tick: the poll thread is asleep. *)
Definition sample_sleeping : World :=
  step sample_lib sample_in_tick (Poll_thread_runs 0 sample_tick).

(** A range count is in flight. *)
Definition sample_counting : World := count_range sample_lib sample_running.

(** A started monitor whose range start entry is blank. *)
Definition sample_blank_range : World :=
  step sample_lib sample_running
       (Edit_entries "elonmusk" "5" "  " "2026-01-26 18:00").

(** An idle monitor whose username entry holds [@] signs only. *)
Definition sample_no_user : World :=
  step sample_lib sample_idle (Edit_entries " @@ " "5" "" "").

(** A date parser that knows two strings. *)
Definition sample_Date : Dashboard.DateParser :=
  fun s =>
    if String.eqb s "2026-01-26T09:00" then Some 100
    else if String.eqb s "2026-01-26T18:00" then Some 200
    else if String.eqb s "2026-01-26T12:00:00.000Z" then Some 150
    else None.

Definition sample_feed : list Dashboard.tweet :=
  [Dashboard.mkTweet "seed_0" "NASA" "New post is live."
                     "2026-01-26T12:00:00.000Z" 10 2;
   Dashboard.mkTweet "seed_1" "dev" "Testing a few ideas." "yesterday" 3 0].

Definition sample_arrival : Dashboard.tweet :=
  Dashboard.mkTweet "1769428800000" "tech" "Thanks for the feedback."
                    "2026-01-26T12:00:00.000Z" 7 1.

(** * Properties *)

Section Properties.

Variable lib : DatetimeLib.

(** ** What a message box leaves alone *)

Lemma engine_messagebox d w : engine (messagebox d w) = engine w.
Proof. reflexivity. Qed.

Lemma engine_eq_inv w1 w2 :
  engine w1 = engine w2 -> self w1 = self w2 /\ threads w1 = threads w2.
Proof. unfold engine; intros H; by inversion H. Qed.

(** A transition reads nothing but the engine part. *)
Lemma step_engine w1 w2 a :
  engine w1 = engine w2 -> engine (step lib w1 a) = engine (step lib w2 a).
Proof.
  destruct w1 as [g t d1], w2 as [g2 t2 d2]; unfold engine; simpl.
  intros [= <- <-].
  destruct a as [u i rs re|e| | | |tid e|tid r]; simpl; try reflexivity.
  - unfold start; simpl. destruct (running g); [reflexivity|].
    destruct (String.eqb _ _); [reflexivity|].
    destruct (int_of_str _); [|reflexivity].
    destruct (start_connect _ _ _) as [g' [err|]]; reflexivity.
  - unfold stop; simpl. destruct (running g); reflexivity.
  - unfold count_range, range_busy; simpl.
    destruct (_ || _); [reflexivity|].
    destruct (parse_dt _ _); [|reflexivity].
    destruct (parse_dt _ _); [|reflexivity].
    destruct (_ <=? _); [reflexivity|].
    destruct (_range_thread g) as [n|]; [|reflexivity].
    destruct (t !! n) as [th|]; [|reflexivity].
    destruct (is_alive th); reflexivity.
  - destruct (t !! tid) as [[p|r]|]; try reflexivity.
    unfold poll_step; simpl.
    destruct (poll_at p) as [| | |[|k]|]; simpl; try reflexivity.
    + destruct (_ && _); reflexivity.
    + destruct (running g); reflexivity.
    + destruct (running g); reflexivity.
  - destruct (t !! tid) as [[p|rt]|]; try reflexivity.
    unfold range_step; simpl. destruct (worker_alive rt); reflexivity.
Qed.

Lemma run_engine trace : forall w1 w2,
  engine w1 = engine w2 -> engine (run lib w1 trace) = engine (run lib w2 trace).
Proof.
  induction trace as [|a trace IH]; intros w1 w2 H; simpl; [exact H|].
  apply IH, step_engine, H.
Qed.

(** ** Start and stop *)



(** ** Frame lemmas: the fields a transition leaves alone *)

Lemma dispatch_session g m : session_fields (dispatch g m) = session_fields g.
Proof. destruct m; reflexivity. Qed.

Lemma drain_session g : session_fields (_drain_queue g) = session_fields g.
Proof.
  unfold _drain_queue.
  transitivity (session_fields (fold_left dispatch (_q g) g)); [reflexivity|].
  generalize (_q g) as q. intros q; revert g.
  induction q as [|m q IH]; intros g; simpl; [reflexivity|].
  by rewrite IH, dispatch_session.
Qed.

Lemma set_tweet_ids_same g : set_tweet_ids (_tweet_ids g) g = g.
Proof. by destruct g. Qed.

(** A tick puts one message and assigns nothing but [_tweet_ids]. *)
Lemma poll_try_shape e p g :
  exists m ids, poll_try e p g = q_put m (set_tweet_ids ids g).
Proof.
  unfold poll_try.
  destruct (api g) eqn:Hapi.
  2: { eexists _, (_tweet_ids g). by rewrite set_tweet_ids_same. }
  destruct (recent_tweets e) as [err|tweets].
  { eexists _, (_tweet_ids g). by rewrite set_tweet_ids_same. }
  destruct (if refresh_due _ _ then _ else _) as [err|info].
  { eexists _, (_tweet_ids g). by rewrite set_tweet_ids_same. }
  destruct (observe _ _) as [new ids]. by eexists _, _.
Qed.

Lemma poll_try_account e p g :
  api (poll_try e p g) = api g
  /\ user_id (poll_try e p g) = user_id g
  /\ running (poll_try e p g) = running g
  /\ monitoring_start (poll_try e p g) = monitoring_start g
  /\ _range_thread (poll_try e p g) = _range_thread g
  /\ _poll_thread (poll_try e p g) = _poll_thread g.
Proof. destruct (poll_try_shape e p g) as (m & ids & ->). done. Qed.

Lemma classic_start a :
  (exists e, a = Click_start e) \/ (forall e, a <> Click_start e).
Proof. destruct a; try (right; discriminate). left; by eexists. Qed.

(** Apart from [start], no transition assigns [api], [user_id] or
    [monitoring_start]. *)
Lemma step_account w a :
  (forall e, a <> Click_start e) ->
  api (self (step lib w a)) = api (self w)
  /\ user_id (self (step lib w a)) = user_id (self w)
  /\ monitoring_start (self (step lib w a)) = monitoring_start (self w).
Proof.
  intros Hns.
  destruct a as [u i rs re|e| | | |tid e|tid r]; simpl.
  - done.
  - by destruct (Hns e).
  - unfold stop. destruct (running (self w)); done.
  - unfold count_range.
    destruct (_ || _); [done|].
    destruct (parse_dt _ _); [|done].
    destruct (parse_dt _ _); [|done].
    destruct (_ <=? _); [done|].
    destruct (range_busy w); done.
  - pose proof (drain_session (self w)) as H.
    unfold session_fields in H.
    injection H as H1 H2 H3 H4 H5 H6 H7. done.
  - destruct (threads w !! tid) as [[p|r]|]; try done.
    unfold poll_step.
    destruct (poll_at p) as [| | |[|k]|]; simpl; try done.
    + destruct (_ && _); done.
    + destruct (running (self w)); done.
    + destruct (poll_try_account e p (self w)) as (Ha & Hu & _ & Hm & _).
      done.
    + destruct (running (self w)); done.
  - destruct (threads w !! tid) as [[p|rt]|]; try done.
    unfold range_step. destruct (worker_alive rt); [|done].
    destruct r; done.
Qed.

(** [start] assigns [monitoring_start] only on the path that resolved a
    truthy [user_id]. *)
Lemma start_account e w :
  monitoring_start (self (start e w)) = None ->
  truthy (user_id (self w)) = false ->
  truthy (user_id (self (start e w))) = false.
Proof.
  unfold start. intros Hms Hid.
  destruct (running (self w)); [done|].
  destruct (String.eqb _ _); [done|].
  destruct (int_of_str _); [|done].
  revert Hms. unfold start_connect.
  destruct (new_api e) as [err|a]; [done|].
  destruct (start_user_info e) as [err|info]; [done|].
  simpl.
  destruct (truthy (if dict_truthy info then _ else _)) eqn:Hres; simpl; done.
Qed.

Lemma start_monitoring_start e w :
  monitoring_start (self (start e w)) = None -> monitoring_start (self w) = None.
Proof.
  unfold start.
  destruct (running (self w)); [done|].
  destruct (String.eqb _ _); [done|].
  destruct (int_of_str _); [|done].
  unfold start_connect.
  destruct (new_api e) as [err|a]; [done|].
  destruct (start_user_info e) as [err|info]; [done|].
  simpl.
  destruct (truthy (if dict_truthy info then _ else _)); simpl; done.
Qed.

(** As long as no [start] has succeeded ([monitoring_start] was never
    assigned), no account id has been resolved. *)
Lemma no_session_no_user_id getenv trace :
  let w := run lib (MonitorGUI_init getenv) trace in
  monitoring_start (self w) = None -> truthy (user_id (self w)) = false.
Proof.
  induction trace as [|a trace IH] using rev_ind; simpl; [done|].
  unfold run in *. rewrite fold_left_app. simpl.
  set (w := fold_left (step lib) trace (MonitorGUI_init getenv)) in *.
  intros Hms.
  destruct (classic_start a) as [[e ->]|Hns].
  - simpl in *. apply start_account; [done|].
    apply IH. by apply (start_monitoring_start e).
  - destruct (step_account w a Hns) as (_ & -> & Hm).
    apply IH. by rewrite <- Hm.
Qed.


(** ** Range requests that are refused *)

(** C10. A range request on a monitor that has no data source yet, or no
    resolved account id, only shows the "Not running" box: the object and the
    thread table are the same as before (no worker, nothing on the queue), and
    from then on the engine behaves as if the request had never been made. *)
Theorem count_range_before_start (w : World) (trace : list action) :
  api (self w) = None \/ truthy (user_id (self w)) = false ->
  count_range lib w
    = messagebox (showinfo "Not running"
                    "Start monitoring first (so we know the user id).") w
  /\ self (count_range lib w) = self w
  /\ threads (count_range lib w) = threads w
  /\ _q (self (count_range lib w)) = _q (self w)
  /\ engine (run lib (count_range lib w) trace) = engine (run lib w trace).
Proof.
  intros Hguard.
  assert (Heq : count_range lib w
    = messagebox (showinfo "Not running"
                    "Start monitoring first (so we know the user id).") w).
  { unfold count_range.
    destruct Hguard as [Hapi|Hid].
    - rewrite Hapi. rewrite bool_decide_eq_false_2; [done|].
      by intros [? ?].
    - rewrite Hid. by rewrite orb_true_r. }
  rewrite Heq. repeat split; try reflexivity.
  apply run_engine, engine_messagebox.
Qed.

(** C3. Once the monitor is started (the timestamps are parsed only behind
    the guard of C10) and both entries parse, with start not before end, the
    request ends in the "Invalid range" error box: no worker thread is
    created, the queue is untouched, and the engine goes on exactly as if the
    request had never been made, so no range event can come from it. *)
Theorem count_range_invalid_range (w : World) (s e : datetime) (trace : list action) :
  api (self w) <> None ->
  truthy (user_id (self w)) = true ->
  parse_dt lib (range_start_var (ui (self w))) = Some s ->
  parse_dt lib (range_end_var (ui (self w))) = Some e ->
  s >= e ->
  count_range lib w
    = messagebox (showerror "Invalid range"
                    "Range start must be before range end.") w
  /\ threads (count_range lib w) = threads w
  /\ _range_thread (self (count_range lib w)) = _range_thread (self w)
  /\ _q (self (count_range lib w)) = _q (self w)
  /\ engine (run lib (count_range lib w) trace) = engine (run lib w trace).
Proof.
  intros Hapi Hid Hs He Hge.
  assert (Heq : count_range lib w
    = messagebox (showerror "Invalid range"
                    "Range start must be before range end.") w).
  { unfold count_range. rewrite Hid, Hs, He.
    rewrite bool_decide_eq_true_2.
    - simpl. destruct (Z.leb_spec e s); [done|lia].
    - destruct (api (self w)); [by eexists|done]. }
  rewrite Heq. repeat split; try reflexivity.
  apply run_engine, engine_messagebox.
Qed.

(** Whatever the state of the monitor, a request whose entries parse with
    start not before end creates no thread and puts nothing on the queue. *)
Lemma count_range_invalid_no_task (w : World) (s e : datetime) :
  parse_dt lib (range_start_var (ui (self w))) = Some s ->
  parse_dt lib (range_end_var (ui (self w))) = Some e ->
  s >= e ->
  engine (count_range lib w) = engine w.
Proof.
  intros Hs He Hge. unfold count_range. rewrite Hs, He.
  destruct (_ || _); [done|].
  destruct (Z.leb_spec e s); [done|lia].
Qed.

(** ** A start that cannot resolve the handle *)



(** ** The poll loop *)

Lemma set_thread_lookup tid t t0 w :
  threads w !! tid = Some t0 -> threads (set_thread tid t w) !! tid = Some t.
Proof.
  intros H. apply list_lookup_insert_eq. by eapply lookup_lt_Some.
Qed.

Lemma count_since_filter tweets bound :
  count_since tweets bound
  = Z.of_nat (length (filter (fun t => bound <= created_at t) tweets)).
Proof.
  unfold count_since.
  enough (G : forall acc,
    fold_left (fun acc t => if bound <=? created_at t then acc + 1 else acc)
              tweets acc
    = acc + Z.of_nat (length (filter (fun t => bound <= created_at t) tweets))).
  { by rewrite G. }
  induction tweets as [|t tweets IH]; intros acc; simpl; [lia|].
  rewrite IH, filter_cons.
  destruct (Z.leb_spec bound (created_at t)); case_decide; simpl; lia.
Qed.


(** Outside the [try] block a poll thread assigns nothing on the object. *)
Lemma poll_step_self tid e p w :
  poll_at p <> In_tick -> self (poll_step tid e p w) = self w.
Proof.
  unfold poll_step. destruct (poll_at p) as [| | |[|k]|]; try done.
  - by destruct (_ && _).
  - by destruct (running (self w)).
  - by destruct (running (self w)).
Qed.

Lemma run_cons w a trace : run lib w (a :: trace) = run lib (step lib w a) trace.
Proof. reflexivity. Qed.

Lemma run_app w t1 t2 : run lib w (t1 ++ t2) = run lib (run lib w t1) t2.
Proof. apply fold_left_app. Qed.

Lemma step_poll w tid e p :
  threads w !! tid = Some (Poll p) ->
  step lib w (Poll_thread_runs tid e) = poll_step tid e p w.
Proof. intros H. simpl. by rewrite H. Qed.

Lemma step_range w tid r t :
  threads w !! tid = Some (Range t) ->
  step lib w (Range_thread_returns tid r) = range_step tid r t w.
Proof. intros H. simpl. by rewrite H. Qed.

(** [poll_step], one program point at a time. *)
Lemma poll_step_while_running tid e p w :
  poll_at p = At_while -> running (self w) = true ->
  poll_step tid e p w
  = set_thread tid (Poll (mkPoll (poll_username p) (poll_interval p)
                                 (poll_cycle p + 1) In_tick)) w.
Proof. intros Hpc Hrun. unfold poll_step. by rewrite Hpc, Hrun. Qed.


Lemma poll_step_tick tid e p w :
  poll_at p = In_tick ->
  poll_step tid e p w
  = set_thread tid
      (Poll (poll_goto (In_sleep (Z.to_nat (poll_interval p * 10))) p))
      (set_self (poll_try e p (self w)) w).
Proof. intros Hpc. unfold poll_step. by rewrite Hpc. Qed.

Lemma poll_step_sleep_over tid e p w :
  poll_at p = In_sleep 0 ->
  poll_step tid e p w = set_thread tid (Poll (poll_goto At_while p)) w.
Proof. intros Hpc. unfold poll_step. by rewrite Hpc. Qed.

Lemma poll_step_sleep_running tid e p w k :
  poll_at p = In_sleep (S k) -> running (self w) = true ->
  poll_step tid e p w = set_thread tid (Poll (poll_goto (In_sleep k) p)) w.
Proof. intros Hpc Hrun. unfold poll_step. by rewrite Hpc, Hrun. Qed.


(** While the flag stays set, a sleeping poll thread left alone sleeps its
    remaining rounds, tests the flag and starts the next cycle. *)
Lemma poll_sleeps_then_ticks tid e k : forall w p,
  threads w !! tid = Some (Poll p) ->
  poll_at p = In_sleep k ->
  running (self w) = true ->
  let w' := run lib w (poll_alone tid e (k + 2)) in
  self w' = self w
  /\ threads w' !! tid
     = Some (Poll (mkPoll (poll_username p) (poll_interval p)
                          (poll_cycle p + 1) In_tick)).
Proof.
  induction k as [|k IH]; intros w p Hth Hpc Hrun.
  - change (poll_alone tid e (0 + 2))
      with [Poll_thread_runs tid e; Poll_thread_runs tid e].
    cbv zeta. rewrite !run_cons.
    rewrite (step_poll w tid e p Hth), (poll_step_sleep_over _ _ _ _ Hpc).
    set (w1 := set_thread tid (Poll (poll_goto At_while p)) w).
    assert (H1 : threads w1 !! tid = Some (Poll (poll_goto At_while p))).
    { by eapply set_thread_lookup. }
    rewrite (step_poll w1 tid e _ H1).
    rewrite poll_step_while_running by done.
    split; [done|].
    cbn [run fold_left]. by eapply set_thread_lookup.
  - change (poll_alone tid e (S k + 2))
      with (Poll_thread_runs tid e :: poll_alone tid e (k + 2)).
    cbv zeta. rewrite run_cons, (step_poll w tid e p Hth).
    rewrite (poll_step_sleep_running _ _ _ _ _ Hpc Hrun).
    set (w1 := set_thread tid (Poll (poll_goto (In_sleep k) p)) w).
    assert (H1 : threads w1 !! tid = Some (Poll (poll_goto (In_sleep k) p))).
    { by eapply set_thread_lookup. }
    destruct (IH w1 _ H1 eq_refl Hrun) as [Hs Ht]. split.
    + by rewrite Hs.
    + by rewrite Ht.
Qed.


(** ** What every poll thread can rely on *)

(** [start] either leaves the threads and the session start alone, and does
    not unset the data source, or ends with both set. *)
Lemma start_cases e w :
  (threads (start e w) = threads w
   /\ monitoring_start (self (start e w)) = monitoring_start (self w)
   /\ (api (self w) <> None -> api (self (start e w)) <> None))
  \/ (api (self (start e w)) <> None
      /\ monitoring_start (self (start e w)) <> None).
Proof.
  unfold start.
  destruct (running (self w)); [by left|].
  destruct (String.eqb _ _); [by left|].
  destruct (int_of_str _); [|by left].
  unfold start_connect.
  destruct (new_api e) as [err|a]; [by left|].
  destruct (start_user_info e) as [err|info]; [by left|].
  cbn [user_id set_user_id].
  destruct (truthy _); cbn [negb]; [by right|by left].
Qed.

(** Apart from [start], no transition brings a poll thread into being. *)
Lemma step_has_poll_thread w a :
  (forall e, a <> Click_start e) ->
  has_poll_thread (step lib w a) -> has_poll_thread w.
Proof.
  intros Hns.
  destruct a as [u i rs re|e| | | |tid e|tid r]; cbn [step].
  - done.
  - by destruct (Hns e).
  - unfold stop. by destruct (running (self w)).
  - unfold count_range.
    destruct (_ || _); [done|].
    destruct (parse_dt _ _); [|done].
    destruct (parse_dt _ _); [|done].
    destruct (_ <=? _); [done|].
    destruct (range_busy w); [done|].
    intros (tid & p & Hp). cbn in Hp. exists tid, p.
    destruct (decide (tid < length (threads w))%nat) as [Hlt|Hge].
    + by rewrite lookup_app_l in Hp.
    + rewrite lookup_app_r in Hp by lia.
      destruct (tid - length (threads w))%nat; done.
  - done.
  - destruct (threads w !! tid) as [[p|r]|] eqn:Hth; try done.
    intros _. by exists tid, p.
  - destruct (threads w !! tid) as [[p|t]|] eqn:Hth; try done.
    unfold range_step. destruct (worker_alive t); [|done].
    intros (tid' & p & Hp). cbn in Hp. exists tid', p.
    destruct (decide (tid = tid')) as [<-|Hne].
    + rewrite list_lookup_insert_eq in Hp by (by eapply lookup_lt_Some). done.
    + by rewrite list_lookup_insert_ne in Hp.
Qed.

Lemma poll_has_session_step w a :
  poll_has_session w -> poll_has_session (step lib w a).
Proof.
  intros Hinv Hpoll.
  destruct (classic_start a) as [[e ->]|Hns].
  - cbn [step] in *.
    destruct (start_cases e w) as [(Ht & Hms & Hapi)|Hset]; [|done].
    assert (has_poll_thread w) as Hw.
    { destruct Hpoll as (tid & p & Hp). exists tid, p. by rewrite <- Ht. }
    destruct (Hinv Hw) as [Ha Hm]. split; [by apply Hapi|by rewrite Hms].
  - destruct (step_account w a Hns) as (-> & _ & ->).
    apply Hinv. by eapply step_has_poll_thread.
Qed.

(** In every world the program can reach, a poll thread finds a data source
    and a session start: the two premises of the statements about a tick. *)
Lemma poll_thread_session getenv trace (tid : nat) (p : poll_thread) :
  let w := run lib (MonitorGUI_init getenv) trace in
  threads w !! tid = Some (Poll p) ->
  api (self w) <> None /\ exists session, monitoring_start (self w) = Some session.
Proof.
  intros w Hp.
  assert (Hinv : poll_has_session w).
  { unfold w. clear. induction trace as [|a trace IH] using rev_ind.
    - intros (tid & p & Hp). done.
    - rewrite run_app. by apply poll_has_session_step. }
  destruct Hinv as [Ha Hm]; [by exists tid, p|].
  split; [done|]. destruct (monitoring_start (self w)); [by eexists|done].
Qed.

(** Within a session the session start is fixed. *)
Lemma session_start_fixed trace : forall w,
  one_session trace ->
  monitoring_start (self (run lib w trace)) = monitoring_start (self w).
Proof.
  induction trace as [|a trace IH]; intros w Hsess; [done|].
  apply Forall_cons in Hsess as [Ha Hsess].
  rewrite run_cons, IH by done.
  by destruct (step_account w a Ha) as (_ & _ & ->).
Qed.

(** ** Ticks *)

Lemma poll_try_failure e p g err :
  api g <> None -> fetch_fails e p err -> poll_try e p g = q_put (MsgError err) g.
Proof.
  intros Hapi Hfail. unfold poll_try.
  destruct (api g); [|done].
  destruct Hfail as [-> | ([tweets ->] & -> & ->)]; done.
Qed.

(** C5. A tick whose fetch fails puts exactly one error event with the text
    of the failure and assigns nothing else: the flag, the dedup set and the
    session start are as before.  The thread is alive afterwards, in its
    sleep, and, left to run while the flag is set, sleeps and starts the next
    cycle. *)
Theorem poll_fetch_failure (tid : nat) (e e' : tick_env) (p : poll_thread)
    (w : World) (err : string) :
  threads w !! tid = Some (Poll p) ->
  poll_at p = In_tick ->
  api (self w) <> None ->
  fetch_fails e p err ->
  let w' := step lib w (Poll_thread_runs tid e) in
  let rounds := Z.to_nat (poll_interval p * 10) in
  self w' = q_put (MsgError err) (self w)
  /\ _q (self w') = _q (self w) ++ [MsgError err]
  /\ running (self w') = running (self w)
  /\ _tweet_ids (self w') = _tweet_ids (self w)
  /\ monitoring_start (self w') = monitoring_start (self w)
  /\ threads w' !! tid = Some (Poll (poll_goto (In_sleep rounds) p))
  /\ is_alive (Poll (poll_goto (In_sleep rounds) p)) = true
  /\ (running (self w) = true ->
      threads (run lib w' (poll_alone tid e' (rounds + 2))) !! tid
      = Some (Poll (mkPoll (poll_username p) (poll_interval p)
                           (poll_cycle p + 1) In_tick))).
Proof.
  intros Hth Hpc Hapi Hfail. cbv zeta.
  rewrite (step_poll _ _ _ _ Hth), (poll_step_tick _ _ _ _ Hpc).
  rewrite (poll_try_failure _ _ _ _ Hapi Hfail).
  set (rounds := Z.to_nat (poll_interval p * 10)).
  set (w1 := set_thread tid _ _).
  assert (H1 : threads w1 !! tid = Some (Poll (poll_goto (In_sleep rounds) p))).
  { by eapply set_thread_lookup. }
  repeat split; try done.
  intros Hrun.
  by destruct (poll_sleeps_then_ticks tid e' rounds w1 _ H1 eq_refl Hrun) as [_ ->].
Qed.

(** The loop returns only from its [while] test with the flag cleared (or
    from the failed [assert] before its first cycle): no tick ends it. *)
Lemma poll_returns_only_when_stopped tid e p w p' :
  threads w !! tid = Some (Poll p) ->
  poll_at p <> At_assert ->
  poll_at p <> Poll_returned ->
  threads (step lib w (Poll_thread_runs tid e)) !! tid = Some (Poll p') ->
  poll_at p' = Poll_returned ->
  poll_at p = At_while /\ running (self w) = false.
Proof.
  intros Hth Hna Hnr. rewrite (step_poll _ _ _ _ Hth). unfold poll_step.
  destruct (poll_at p) as [| | |[|k]|] eqn:Hpc; try done.
  - destruct (running (self w)); [|done].
    erewrite set_thread_lookup by done. by intros [= <-].
  - erewrite set_thread_lookup by (simpl; done). by intros [= <-].
  - erewrite set_thread_lookup by done. by intros [= <-].
  - destruct (running (self w)); cbn [negb];
      erewrite set_thread_lookup by done; by intros [= <-].
Qed.



(** ** One range worker at a time *)

Lemma range_tracked_busy w tid :
  range_tracked w -> range_in_flight w tid -> range_busy w = true.
Proof.
  intros Hinv Hfl. unfold range_busy. rewrite (Hinv tid Hfl).
  destruct Hfl as (r & -> & Hr). done.
Qed.

(** A busy monitor starts no second worker, whatever the entries hold. *)
Lemma count_range_busy w :
  range_busy w = true ->
  threads (count_range lib w) = threads w
  /\ _range_thread (self (count_range lib w)) = _range_thread (self w)
  /\ _q (self (count_range lib w)) = _q (self w).
Proof.
  intros Hbusy. unfold count_range.
  destruct (_ || _); [done|].
  destruct (parse_dt _ _); [|done].
  destruct (parse_dt _ _); [|done].
  destruct (_ <=? _); [done|].
  by rewrite Hbusy.
Qed.

Lemma range_in_flight_insert_poll w tid p0 p tid' g :
  threads w !! tid = Some (Poll p0) ->
  range_in_flight (set_thread tid (Poll p) (set_self g w)) tid' ->
  range_in_flight w tid'.
Proof.
  intros Hth (r & Hr & Ha). exists r. split; [|done].
  cbn [set_thread set_self threads] in Hr.
  destruct (decide (tid = tid')) as [<-|Hne].
  - rewrite list_lookup_insert_eq in Hr by (by eapply lookup_lt_Some). done.
  - by rewrite list_lookup_insert_ne in Hr.
Qed.

Lemma set_self_same w : set_self (self w) w = w.
Proof. by destruct w. Qed.

Lemma range_tracked_step w a : range_tracked w -> range_tracked (step lib w a).
Proof.
  intros Hinv.
  destruct a as [u i rs re|e| | | |tid e|tid r]; cbn [step].
  - exact Hinv.
  - unfold start.
    destruct (running (self w)); [done|].
    destruct (String.eqb _ _); [done|].
    destruct (int_of_str _); [|done].
    destruct (start_connect e _ (self w)) as [g [err|]] eqn:Hc.
    + assert (_range_thread g = _range_thread (self w)) as Hg.
      { revert Hc. unfold start_connect.
        destruct (new_api e); [by intros [= <- _]|].
        destruct (start_user_info e); [by intros [= <- _]|].
        cbn [user_id set_user_id].
        destruct (truthy _); cbn [negb]; by intros [= <-]. }
      intros tid Hfl. cbn. rewrite Hg. by apply Hinv.
    + assert (_range_thread g = _range_thread (self w)) as Hg.
      { revert Hc. unfold start_connect.
        destruct (new_api e); [done|].
        destruct (start_user_info e); [done|].
        cbn [user_id set_user_id].
        destruct (truthy _); cbn [negb]; [|done]. by intros [= <-]. }
      intros tid (r & Hr & Ha). cbn in Hr |- *. rewrite Hg. apply Hinv.
      exists r. split; [|done].
      destruct (decide (tid < length (threads w))%nat) as [Hlt|Hge].
      * by rewrite lookup_app_l in Hr.
      * rewrite lookup_app_r in Hr by lia.
        destruct (tid - length (threads w))%nat; done.
  - unfold stop. destruct (running (self w)); done.
  - destruct (range_busy w) eqn:Hbusy.
    + destruct (count_range_busy w Hbusy) as (Ht & Hr & _).
      intros tid (r & Hth & Ha). rewrite Hr. apply Hinv.
      exists r. by rewrite <- Ht.
    + unfold count_range.
      destruct (_ || _); [done|].
      destruct (parse_dt _ _); [|done].
      destruct (parse_dt _ _); [|done].
      destruct (_ <=? _); [done|].
      rewrite Hbusy.
      intros tid (r & Hr & Ha). cbn in Hr |- *.
      destruct (decide (tid < length (threads w))%nat) as [Hlt|Hge].
      * rewrite lookup_app_l in Hr by done.
        assert (range_busy w = true); [|congruence].
        eapply range_tracked_busy; [done|]. by exists r.
      * rewrite lookup_app_r in Hr by lia.
        destruct (tid - length (threads w))%nat eqn:Hd; [|done].
        f_equal. lia.
  - intros tid (r & Hr & Ha). cbn in Hr |- *.
    pose proof (drain_session (self w)) as H. unfold session_fields in H.
    injection H as _ _ _ _ _ _ ->. apply Hinv. by exists r.
  - destruct (threads w !! tid) as [[p|r]|] eqn:Hth; try done.
    intros tid' Hfl.
    assert (_range_thread (self (poll_step tid e p w)) = _range_thread (self w)
            /\ range_in_flight w tid') as [-> Hfl'].
    2: by apply Hinv.
    revert Hfl. unfold poll_step.
    destruct (poll_at p) as [| | |[|k]|]; try done.
    + destruct (_ && _); intros Hfl; (split; [done|]);
        rewrite <- (set_self_same w) in Hfl;
        by eapply range_in_flight_insert_poll.
    + destruct (running (self w)); intros Hfl; (split; [done|]);
        rewrite <- (set_self_same w) in Hfl;
        by eapply range_in_flight_insert_poll.
    + intros Hfl. split.
      * destruct (poll_try_account e p (self w)) as (_ & _ & _ & _ & Hr & _).
        exact Hr.
      * by eapply range_in_flight_insert_poll.
    + intros Hfl; (split; [done|]);
        rewrite <- (set_self_same w) in Hfl;
        by eapply range_in_flight_insert_poll.
    + destruct (running (self w)); cbn [negb]; intros Hfl; (split; [done|]);
        rewrite <- (set_self_same w) in Hfl;
        by eapply range_in_flight_insert_poll.
  - destruct (threads w !! tid) as [[p|t]|] eqn:Hth; try done.
    unfold range_step. destruct (worker_alive t) eqn:Halive; [|done].
    intros tid' (r' & Hr & Ha). cbn in Hr.
    assert (_range_thread (self (set_thread tid
              (Range (mkRange (worker_start t) (worker_end t) false))
              (set_self (worker r (self w)) w))) = _range_thread (self w)) as ->.
    { by destruct r. }
    apply Hinv. exists r'. split; [|done].
    destruct (decide (tid = tid')) as [<-|Hne].
    + rewrite list_lookup_insert_eq in Hr by (by eapply lookup_lt_Some).
      injection Hr as <-. done.
    + by rewrite list_lookup_insert_ne in Hr.
Qed.

Lemma range_tracked_init getenv : range_tracked (MonitorGUI_init getenv).
Proof. intros tid (r & Hr & _). done. Qed.

Lemma range_tracked_run trace : forall w,
  range_tracked w -> range_tracked (run lib w trace).
Proof.
  induction trace as [|a trace IH]; intros w Hinv; [done|].
  rewrite run_cons. by apply IH, range_tracked_step.
Qed.

(** C9. In every world the program can reach, two range workers in flight
    are one and the same thread; and while one is in flight a further
    [count_range] creates no thread, keeps [_range_thread] and puts nothing
    on the queue. *)
Theorem one_range_worker (getenv : string -> option string)
    (trace : list action) (i j : nat) :
  let w := run lib (MonitorGUI_init getenv) trace in
  range_in_flight w i ->
  range_in_flight w j ->
  i = j
  /\ threads (count_range lib w) = threads w
  /\ _range_thread (self (count_range lib w)) = Some i
  /\ _q (self (count_range lib w)) = _q (self w).
Proof.
  intros w Hi Hj.
  assert (Hinv : range_tracked w).
  { apply range_tracked_run, range_tracked_init. }
  pose proof (Hinv i Hi) as Hti. pose proof (Hinv j Hj) as Htj.
  destruct (count_range_busy w (range_tracked_busy w i Hinv Hi)) as (Ht & Hr & Hq).
  repeat split; try done; congruence.
Qed.


(** ** The dedup loop *)

Lemma observe_step_eq new ids t :
  observe_step (new, ids) t
  = if decide (id t ∈ ids) then (new, ids) else (new ++ [t], ids ∪ {[ id t ]}).
Proof. reflexivity. Qed.

Lemma observe_fold tweets : forall new ids,
  fold_left observe_step tweets (new, ids)
  = (new ++ (observe ids tweets).1, (observe ids tweets).2).
Proof.
  unfold observe.
  induction tweets as [|t tweets IH]; intros new ids; cbn [fold_left].
  - by rewrite app_nil_r.
  - rewrite !observe_step_eq.
    destruct (decide (id t ∈ ids)).
    + apply IH.
    + rewrite (IH (new ++ [t])), (IH ([] ++ [t])). cbn [fst snd].
      by rewrite <- app_assoc.
Qed.

Lemma observe_nil ids : observe ids [] = ([], ids).
Proof. reflexivity. Qed.

Lemma observe_cons ids t tweets :
  observe ids (t :: tweets)
  = if decide (id t ∈ ids) then observe ids tweets
    else (t :: (observe (ids ∪ {[ id t ]}) tweets).1,
          (observe (ids ∪ {[ id t ]}) tweets).2).
Proof.
  unfold observe at 1. cbn [fold_left]. rewrite observe_step_eq.
  destruct (decide (id t ∈ ids)); [done|].
  by rewrite observe_fold.
Qed.


Lemma observe_ids tweets : forall ids,
  (observe ids tweets).2 = ids ∪ list_to_set (id <$> tweets).
Proof.
  induction tweets as [|t tweets IH]; intros ids.
  - rewrite observe_nil. cbn. by rewrite union_empty_r_L.
  - rewrite observe_cons, fmap_cons, list_to_set_cons.
    destruct (decide (id t ∈ ids)) as [Hin|Hout].
    + rewrite IH. apply set_eq. intros y.
      rewrite !elem_of_union, elem_of_singleton.
      split; [tauto|]. intros [Hy|[->|Hy]]; tauto.
    + cbn [snd]. rewrite IH. by rewrite (assoc_L (∪)).
Qed.






(** A tick puts either one error event, assigning nothing, or one update
    event whose ["new"] and the dedup set are what the loop computed. *)
Lemma poll_try_cases e p g :
  (exists err, poll_try e p g = q_put (MsgError err) g)
  \/ (exists now tweets today period info,
        poll_try e p g
        = q_put (MsgUpdate now tweets (observe (_tweet_ids g) tweets).1
                           today period info)
                (set_tweet_ids (observe (_tweet_ids g) tweets).2 g)).
Proof.
  unfold poll_try.
  destruct (api g); [|left; by eexists].
  destruct (recent_tweets e) as [err|tweets]; [left; by eexists|].
  destruct (if refresh_due _ _ then _ else _) as [err|info]; [left; by eexists|].
  right. destruct (observe _ _) as [new ids] eqn:Hobs.
  eexists _, tweets, _, _, _. by rewrite Hobs.
Qed.







(** ** Stopping while a fetch is in flight *)

Lemma drain_snoc g q m :
  _q g = q ++ [m] ->
  _drain_queue g = set_q [] (dispatch (fold_left dispatch q g) m).
Proof. intros Hq. unfold _drain_queue. by rewrite Hq, fold_left_app. Qed.

Lemma poll_try_success e p g tweets info :
  api g <> None ->
  recent_tweets e = inr tweets ->
  (if refresh_due (poll_cycle p) (poll_interval p)
   then user_info e = inr info else info = None) ->
  poll_try e p g
  = q_put (MsgUpdate (tick_now e) tweets (observe (_tweet_ids g) tweets).1
             (count_since tweets (replace_midnight (tick_now e)))
             (count_since tweets (default (tick_now e) (monitoring_start g)))
             info)
          (set_tweet_ids (observe (_tweet_ids g) tweets).2 g).
Proof.
  intros Hapi Htw Hinfo. unfold poll_try. destruct (api g); [|done].
  rewrite Htw.
  destruct (refresh_due _ _); [rewrite Hinfo|subst info];
    by destruct (observe _ _).
Qed.



(** ** The range count *)

Lemma posts_in_range_app a b l1 l2 :
  posts_in_range a b (l1 ++ l2) = posts_in_range a b l1 + posts_in_range a b l2.
Proof. unfold posts_in_range. rewrite filter_app, length_app. lia. Qed.

Lemma posts_in_range_older a b l :
  Forall (fun t => created_at t < a) l -> posts_in_range a b l = 0.
Proof.
  unfold posts_in_range. induction 1 as [|t l Ht _ IH]; [done|].
  rewrite filter_cons. case_decide; [lia|exact IH].
Qed.

Lemma newer_drop history n :
  StronglySorted newer history -> StronglySorted newer (drop n history).
Proof.
  intros Hs. rewrite <- (take_drop n history) in Hs.
  by apply StronglySorted_app_1_r in Hs.
Qed.

(** On a page that ends before [a], every later page is before [a] too. *)
Lemma oldest_before_rest a page_size rest :
  StronglySorted newer rest ->
  oldest_before a (take page_size rest) = true ->
  Forall (fun t => created_at t < a) (drop page_size rest).
Proof.
  intros Hs Hold. unfold oldest_before in Hold.
  destruct (last (take page_size rest)) as [t|] eqn:Hlast; [|done].
  apply Z.ltb_lt in Hold. apply last_Some_elem_of in Hlast.
  rewrite <- (take_drop page_size rest) in Hs.
  apply Forall_forall. intros u Hu.
  pose proof (StronglySorted_app_1_elem_of _ _ _ _ _ Hs Hlast Hu) as Hnew.
  unfold newer in Hnew. lia.
Qed.

(** With fuel for one fetch per remaining post (and one more), paging through
    a history that is given newest first counts every post in range from the
    cursor on. *)
Lemma count_pages_simulated history page_size a b :
  StronglySorted newer history ->
  (0 < page_size)%nat ->
  forall fuel calls cursor acc,
    (length history - default 0%nat cursor < fuel)%nat ->
    count_pages fuel (simulated_source history page_size) calls cursor a b acc
    = Some (inr (acc + posts_in_range a b (drop (default 0%nat cursor) history))).
Proof.
  intros Hs Hpage.
  induction fuel as [|fuel IH]; intros calls cursor acc Hfuel; [lia|].
  cbn [count_pages]. unfold simulated_source at 1.
  set (offset := default 0%nat cursor) in *.
  set (rest := drop offset history).
  assert (Hsplit : posts_in_range a b rest
            = posts_in_range a b (take page_size rest)
              + posts_in_range a b (drop page_size rest)).
  { by rewrite <- posts_in_range_app, take_drop. }
  destruct (oldest_before a (take page_size rest)) eqn:Hold.
  - rewrite Hsplit, (posts_in_range_older a b (drop page_size rest)).
    + do 2 f_equal. lia.
    + apply oldest_before_rest; [|done]. by apply newer_drop.
  - destruct (Nat.ltb_spec (offset + page_size) (length history)) as [Hlt|Hge].
    + assert (Hnext : default 0%nat (Some (offset + page_size)%nat)
                      = (offset + page_size)%nat) by done.
      rewrite IH by (rewrite Hnext; lia).
      rewrite Hnext, Hsplit. unfold rest. rewrite drop_drop. do 2 f_equal. lia.
    + rewrite Hsplit. unfold rest at 3.
      rewrite drop_drop, (drop_ge history) by lia.
      do 2 f_equal. unfold posts_in_range at 3. cbn. lia.
Qed.

(** C1. For a history given newest first with distinct timestamps, paged
    [page_size] posts at a time, and a range [a < b] typed into the entries of
    a started, idle monitor: the count is the number of posts whose
    timestamp lies in [a, b], whatever the fuel beyond one fetch per post
    (0 when none lies there, the length of the history when all do);
    [count_range] starts one worker holding [a] and [b]; when the worker
    returns it has put that count on the queue as one range event, it is no
    longer alive, and it puts nothing more. *)
Theorem range_count_exact (w : World) (history : list Tweet) (page_size fuel : nat)
    (a b : datetime) (r' : raises Z) :
  StronglySorted newer history ->
  (0 < page_size)%nat ->
  (length history < fuel)%nat ->
  api (self w) <> None ->
  truthy (user_id (self w)) = true ->
  parse_dt lib (range_start_var (ui (self w))) = Some a ->
  parse_dt lib (range_end_var (ui (self w))) = Some b ->
  a < b ->
  range_busy w = false ->
  let n := Z.of_nat (length (filter (fun t => a <= created_at t <= b) history)) in
  let tid := length (threads w) in
  let w1 := count_range lib w in
  let w2 := worker_returns lib w1 tid
              (count_tweets_in_range fuel (simulated_source history page_size) a b) in
  count_tweets_in_range fuel (simulated_source history page_size) a b
    = Some (inr n)
  /\ (Forall (fun t => ~ a <= created_at t <= b) history -> n = 0)
  /\ (Forall (fun t => a <= created_at t <= b) history
      -> n = Z.of_nat (length history))
  /\ threads w1 = threads w ++ [Range (mkRange a b true)]
  /\ _q (self w1) = _q (self w)
  /\ _q (self w2) = _q (self w) ++ [MsgRange n]
  /\ threads w2 !! tid = Some (Range (mkRange a b false))
  /\ step lib w2 (Range_thread_returns tid r') = w2.
Proof.
  intros Hs Hpage Hfuel Hapi Hid Ha Hb Hab Hidle. cbv zeta.
  set (n := Z.of_nat (length (filter (fun t => a <= created_at t <= b) history))).
  assert (Hcr : count_range lib w
    = spawn (Range (mkRange a b true))
        (set_self
           (set_range_thread (Some (length (threads w)))
              (_log_line (Log_counting a b)
                 (set_ui (set_range_var Range_dots (ui (self w))) (self w))))
           w)).
  { unfold count_range. rewrite Hid, Ha, Hb, Hidle.
    rewrite bool_decide_eq_true_2 by (destruct (api (self w)); [by eexists|done]).
    cbn [negb orb]. destruct (Z.leb_spec b a); [lia|done]. }
  assert (Hcount : count_tweets_in_range fuel
                     (simulated_source history page_size) a b = Some (inr n)).
  { unfold count_tweets_in_range.
    rewrite (count_pages_simulated history page_size a b Hs Hpage)
      by (cbn [default]; lia).
    cbn [default drop]. do 2 f_equal. }
  rewrite Hcr, Hcount. cbn [worker_returns].
  set (w1 := spawn _ _).
  assert (Hth1 : threads w1 !! length (threads w) = Some (Range (mkRange a b true))).
  { unfold w1. cbn [spawn threads set_self].
    rewrite lookup_app_r by lia. by rewrite Nat.sub_diag. }
  rewrite (step_range _ _ _ _ Hth1). unfold range_step at 1 2 3.
  cbn [worker_alive worker_start worker_end worker].
  set (w2 := set_thread _ _ _).
  assert (Hth2 : threads w2 !! length (threads w)
                 = Some (Range (mkRange a b false))).
  { by eapply set_thread_lookup. }
  split; [|split; [|split]].
  - done.
  - intros Hnone. unfold n.
    enough (filter (fun t => a <= created_at t <= b) history = []) as -> by done.
    clear -Hnone. induction Hnone as [|t l Ht _ IH]; [done|].
    by rewrite filter_cons_False.
  - intros Hall. unfold n. do 2 f_equal.
    clear -Hall. induction Hall as [|t l Ht _ IH]; [done|].
    by rewrite filter_cons_True, IH.
  - repeat split; try done.
    by rewrite (step_range _ _ _ _ Hth2).
Qed.

End Properties.

(** * Further properties of the code *)

Section Further.

Variable lib : DatetimeLib.


(** ** Strings: [strip] *)

Lemma append_cons c a b : String.append (String c a) b = String c (String.append a b).
Proof. reflexivity. Qed.

Lemma append_nil_l b : String.append "" b = b.
Proof. reflexivity. Qed.

Lemma append_nil_r a : String.append a "" = a.
Proof. induction a as [|c a IH]; [done|]. by rewrite append_cons, IH. Qed.

Lemma append_assoc a b c :
  String.append a (String.append b c) = String.append (String.append a b) c.
Proof. induction a as [|x a IH]; [done|]. by rewrite !append_cons, IH. Qed.

Lemma string_all_app p a b :
  string_all p (String.append a b) = string_all p a && string_all p b.
Proof.
  induction a as [|c a IH]; [done|].
  rewrite append_cons. cbn [string_all]. by rewrite IH, andb_assoc.
Qed.

Lemma string_rev_app a b :
  string_rev (String.append a b) = String.append (string_rev b) (string_rev a).
Proof.
  induction a as [|c a IH].
  - by rewrite append_nil_l, append_nil_r.
  - rewrite append_cons. cbn [string_rev]. by rewrite IH, append_assoc.
Qed.

Lemma string_rev_involutive s : string_rev (string_rev s) = s.
Proof.
  induction s as [|c s IH]; [done|].
  cbn [string_rev]. by rewrite string_rev_app, IH.
Qed.

Lemma string_all_rev p s : string_all p (string_rev s) = string_all p s.
Proof.
  induction s as [|c s IH]; [done|].
  cbn [string_rev string_all]. rewrite string_all_app, IH. cbn [string_all].
  by rewrite andb_true_r, andb_comm.
Qed.

Lemma lstrip_all p s : string_all p s = true -> lstrip_with p s = "".
Proof.
  induction s as [|c s IH]; [done|]. cbn [string_all lstrip_with].
  intros [-> Hs]%andb_true_iff. by apply IH.
Qed.

(** What [lstrip] leaves is empty exactly when everything was stripped. *)
Lemma lstrip_empty_all p s : lstrip_with p s = "" -> string_all p s = true.
Proof.
  induction s as [|c s IH]; [done|]. cbn [string_all lstrip_with].
  destruct (p c); [by apply IH|done].
Qed.

Lemma lstrip_app p a b :
  lstrip_with p (String.append a b)
  = if string_all p a then lstrip_with p b
    else String.append (lstrip_with p a) b.
Proof.
  induction a as [|c a IH]; [done|].
  rewrite append_cons. cbn [string_all lstrip_with].
  destruct (p c); [exact IH|done].
Qed.

Lemma rstrip_app_all p s post :
  string_all p post = true -> rstrip_with p (String.append s post) = rstrip_with p s.
Proof.
  intros Hpost. unfold rstrip_with.
  by rewrite string_rev_app, lstrip_app, string_all_rev, Hpost.
Qed.

Lemma rstrip_all p s : string_all p s = true -> rstrip_with p s = "".
Proof.
  intros Hs. unfold rstrip_with. rewrite lstrip_all; [done|].
  by rewrite string_all_rev.
Qed.

Lemma strip_blank s : string_all isspace s = true -> strip s = "".
Proof. intros Hs. unfold strip. by rewrite lstrip_all. Qed.

(** [strip] does not see blanks around its argument. *)
Lemma strip_app pre s post :
  string_all isspace pre = true ->
  string_all isspace post = true ->
  strip (String.append pre (String.append s post)) = strip s.
Proof.
  intros Hpre Hpost. unfold strip.
  rewrite lstrip_app, Hpre, lstrip_app.
  destruct (string_all isspace s) eqn:Hs.
  - by rewrite (lstrip_all _ post), (lstrip_all _ s).
  - by rewrite rstrip_app_all.
Qed.


(** ** [parse_dt] *)

Lemma str_or_empty x : str_or x "" = x.
Proof. unfold str_or. by destruct (String.eqb_spec x "") as [->|]. Qed.

Lemma parse_dt_of_blank v :
  string_all isspace v = true -> parse_dt lib v = None.
Proof.
  intros Hv. unfold parse_dt. by rewrite str_or_empty, strip_blank.
Qed.

(** X1. An entry that is empty or holds only white space parses to [None]
    without the [datetime] parsers being consulted. *)
Theorem parse_dt_blank (v : string) :
  string_all isspace v = true -> parse_dt lib v = None.
Proof. apply parse_dt_of_blank. Qed.

(** X2. White space around the text of an entry does not change what it
    parses to. *)
Theorem parse_dt_ignores_blanks (pre v post : string) :
  string_all isspace pre = true ->
  string_all isspace post = true ->
  parse_dt lib (String.append pre (String.append v post)) = parse_dt lib v.
Proof.
  intros Hpre Hpost. unfold parse_dt.
  by rewrite !str_or_empty, strip_app.
Qed.


(** ** The thread table *)

Lemma thread_succ_refl t : thread_succ t t.
Proof. destruct t as [p|r]; cbn; repeat split; try done; lia. Qed.

(** A transition leaves the thread table alone, appends one fresh thread, or
    moves one thread on. *)
Lemma step_threads_shape w a :
  threads (step lib w a) = threads w
  \/ (exists t, threads (step lib w a) = threads w ++ [t] /\ fresh_thread t)
  \/ (exists tid t t',
        threads w !! tid = Some t
        /\ threads (step lib w a) = <[tid := t']> (threads w)
        /\ thread_succ t t').
Proof.
  destruct a as [u i rs re|e| | | |tid e|tid r]; cbn [step].
  - by left.
  - unfold start.
    destruct (running (self w)); [by left|].
    destruct (String.eqb _ _); [by left|].
    destruct (int_of_str _) as [n|]; [|by left].
    destruct (start_connect _ _ _) as [g [err|]]; [by left|].
    right; left. eexists. split; [reflexivity|]. cbn. split; [lia|done].
  - unfold stop. destruct (running (self w)); by left.
  - unfold count_range.
    destruct (_ || _); [by left|].
    destruct (parse_dt _ _) as [a|]; [|by left].
    destruct (parse_dt _ _) as [b|]; [|by left].
    destruct (Z.leb_spec b a); [by left|].
    destruct (range_busy w); [by left|].
    right; left. eexists. split; [reflexivity|]. by cbn.
  - by left.
  - destruct (threads w !! tid) as [[p|r]|] eqn:Hth; [|by left..].
    unfold poll_step.
    destruct (poll_at p) as [| | |[|k]|] eqn:Hpc; [..|by left];
      right; right; exists tid, (Poll p).
    + destruct (_ && _); eexists; (split; [done|]); (split; [reflexivity|]);
        cbn; rewrite Hpc; repeat split; (done || lia).
    + destruct (running (self w)); eexists; (split; [done|]);
        (split; [reflexivity|]); cbn; rewrite Hpc; repeat split; (done || lia).
    + eexists. split; [done|]. split; [reflexivity|].
      cbn. rewrite Hpc. repeat split; (done || lia).
    + eexists. split; [done|]. split; [reflexivity|].
      cbn. rewrite Hpc. repeat split; (done || lia).
    + destruct (running (self w)); cbn [negb]; eexists; (split; [done|]);
        (split; [reflexivity|]); cbn; rewrite Hpc; repeat split; (done || lia).
  - destruct (threads w !! tid) as [[p|t]|] eqn:Hth; [by left| |by left].
    unfold range_step. destruct (worker_alive t) eqn:Halive; [|by left].
    right; right. exists tid, (Range t). eexists. split; [done|].
    split; [reflexivity|]. by cbn.
Qed.

Lemma step_threads_persist w a tid t :
  threads w !! tid = Some t ->
  exists t', threads (step lib w a) !! tid = Some t' /\ thread_succ t t'.
Proof.
  intros Hth.
  destruct (step_threads_shape w a)
    as [->|[(t0 & -> & _)|(tid0 & t0 & t0' & Hth0 & -> & Hsucc)]].
  - exists t. split; [done|apply thread_succ_refl].
  - exists t. split; [|apply thread_succ_refl].
    rewrite lookup_app_l; [done|]. by eapply lookup_lt_Some.
  - destruct (decide (tid0 = tid)) as [->|Hne].
    + exists t0'. split.
      * apply list_lookup_insert_eq. by eapply lookup_lt_Some.
      * congruence.
    + exists t. split; [|apply thread_succ_refl].
      by rewrite list_lookup_insert_ne.
Qed.

(** X3. No transition removes a thread or puts another kind of thread in
    its place: a thread keeps its position, its username and interval or its
    range; a poll thread goes through at most one more cycle; and a thread
    that has returned is left as it is. *)
Theorem threads_persist (w : World) (a : action) (tid : nat) (t : thread) :
  threads w !! tid = Some t ->
  exists t', threads (step lib w a) !! tid = Some t' /\ thread_succ t t'.
Proof. apply step_threads_persist. Qed.

(** Where the threads of the next world come from. *)
Lemma step_threads_origin w a tid t' :
  threads (step lib w a) !! tid = Some t' ->
  (exists t, threads w !! tid = Some t /\ thread_succ t t')
  \/ (tid = length (threads w) /\ fresh_thread t').
Proof.
  destruct (step_threads_shape w a)
    as [->|[(t0 & -> & Hfresh)|(tid0 & t0 & t0' & Hth0 & -> & Hsucc)]].
  - intros Hth. left. exists t'. split; [done|apply thread_succ_refl].
  - intros [[_ Hth]|[-> ->]]%lookup_snoc_Some.
    + left. exists t'. split; [done|apply thread_succ_refl].
    + by right.
  - intros [(-> & -> & _)|[Hne Hth]]%list_lookup_insert_Some.
    + left. by exists t0.
    + left. exists t'. split; [done|apply thread_succ_refl].
Qed.

(** What holds of every thread of a reachable world. *)
Lemma threads_wellformed getenv trace tid t :
  threads (run lib (MonitorGUI_init getenv) trace) !! tid = Some t ->
  match t with
  | Poll p => 5 <= poll_interval p
  | Range r => worker_start r < worker_end r
  end.
Proof.
  revert tid t. induction trace as [|a trace IH] using rev_ind; intros tid t.
  - done.
  - rewrite run_app, run_cons. cbn [run fold_left].
    intros [(t0 & Hth0 & Hsucc)|[_ Hfresh]]%step_threads_origin.
    + specialize (IH _ _ Hth0). destruct t0 as [p0|r0], t as [p|r]; try done.
      * destruct Hsucc as (_ & -> & _). done.
      * destruct Hsucc as (-> & -> & _). done.
    + destruct t as [p|r]; cbn in Hfresh; tauto.
Qed.

(** X4. Every poll thread the program ever runs polls at an interval of at
    least 5 seconds, whatever the interval entry held: its sleep between two
    ticks has at least 50 rounds. *)
Theorem poll_interval_floor (getenv : string -> option string)
    (trace : list action) (tid : nat) (p : poll_thread) :
  threads (run lib (MonitorGUI_init getenv) trace) !! tid = Some (Poll p) ->
  5 <= poll_interval p /\ (50 <= Z.to_nat (poll_interval p * 10))%nat.
Proof.
  intros Hth. pose proof (threads_wellformed _ _ _ _ Hth) as Hint.
  cbn in Hint. split; [done|lia].
Qed.

(** X5. Every range worker the program ever starts holds a range whose
    start is strictly before its end. *)
Theorem range_worker_valid (getenv : string -> option string)
    (trace : list action) (tid : nat) (r : range_thread) :
  threads (run lib (MonitorGUI_init getenv) trace) !! tid = Some (Range r) ->
  worker_start r < worker_end r.
Proof. intros Hth. exact (threads_wellformed _ _ _ _ Hth). Qed.


(** ** The flag, the buttons and the session *)

Lemma dispatch_flag_buttons g m : flag_buttons (dispatch g m) = flag_buttons g.
Proof.
  destruct m as [now tweets new today period info|count|err]; try done.
  cbn [dispatch]. unfold _apply_update. by destruct (dict_truthy info).
Qed.

Lemma drain_flag_buttons g : flag_buttons (_drain_queue g) = flag_buttons g.
Proof.
  unfold _drain_queue.
  transitivity (flag_buttons (fold_left dispatch (_q g) g)); [done|].
  generalize (_q g) as q. intros q; revert g.
  induction q as [|m q IH]; intros g; cbn [fold_left]; [done|].
  by rewrite IH, dispatch_flag_buttons.
Qed.

(** A transition leaves the flag and the buttons alone, or sets them the way
    [start] does, or the way [stop] does. *)
Lemma step_flag_buttons w a :
  flag_buttons (self (step lib w a)) = flag_buttons (self w)
  \/ flag_buttons (self (step lib w a)) = (true, disabled, normal)
  \/ flag_buttons (self (step lib w a)) = (false, normal, disabled).
Proof.
  destruct a as [u i rs re|e| | | |tid e|tid r]; cbn [step].
  - by left.
  - unfold start.
    destruct (running (self w)) eqn:Hrun; [by left|].
    destruct (String.eqb _ _); [by left|].
    destruct (int_of_str _) as [n|]; [|by left].
    destruct (start_connect _ _ _) as [g [err|]] eqn:Hc; [|by right; left].
    left. revert Hc. unfold start_connect.
    destruct (new_api e); [by intros [= <- _]|].
    destruct (start_user_info e); [by intros [= <- _]|].
    cbn [user_id set_user_id].
    destruct (truthy _); cbn [negb]; [done|]. by intros [= <- _].
  - unfold stop. destruct (running (self w)) eqn:Hrun; [by right; right|by left].
  - left. unfold count_range.
    destruct (_ || _); [done|].
    destruct (parse_dt _ _); [|done].
    destruct (parse_dt _ _); [|done].
    destruct (_ <=? _); [done|].
    by destruct (range_busy w).
  - left. apply drain_flag_buttons.
  - left. destruct (threads w !! tid) as [[p|r]|]; try done.
    destruct (decide (poll_at p = In_tick)) as [Hpc|Hpc].
    + rewrite (poll_step_tick _ _ _ _ Hpc).
      cbn [set_thread set_self self].
      by destruct (poll_try_shape e p (self w)) as (m & ids & ->).
    + by rewrite poll_step_self.
  - left. destruct (threads w !! tid) as [[p|t]|]; try done.
    unfold range_step. destruct (worker_alive t); [|done]. by destruct r.
Qed.

(** X6. In every world the program can reach, the buttons show the flag:
    [Start] is disabled and [Stop] enabled exactly while [self.running] is
    set. *)
Theorem buttons_follow_flag (getenv : string -> option string)
    (trace : list action) :
  buttons_match (self (run lib (MonitorGUI_init getenv) trace)).
Proof.
  induction trace as [|a trace IH] using rev_ind; [done|].
  rewrite run_app, run_cons. cbn [run fold_left].
  set (w := run lib (MonitorGUI_init getenv) trace) in *.
  unfold buttons_match in *.
  destruct (step_flag_buttons w a) as [H|[H|H]];
    unfold flag_buttons in H; injection H as -> -> ->; done.
Qed.

(** Apart from [start], no transition sets the flag or assigns
    [_poll_thread]. *)
Lemma step_flag_frame w a :
  (forall e, a <> Click_start e) ->
  _poll_thread (self (step lib w a)) = _poll_thread (self w)
  /\ (running (self (step lib w a)) = true -> running (self w) = true).
Proof.
  intros Hns.
  destruct a as [u i rs re|e| | | |tid e|tid r]; cbn [step].
  - done.
  - by destruct (Hns e).
  - unfold stop. destruct (running (self w)) eqn:Hrun; cbn; split; congruence.
  - unfold count_range.
    destruct (_ || _); [done|].
    destruct (parse_dt _ _); [|done].
    destruct (parse_dt _ _); [|done].
    destruct (_ <=? _); [done|].
    by destruct (range_busy w).
  - pose proof (drain_session (self w)) as H. unfold session_fields in H.
    injection H as _ _ Hrun _ _ Hp _.
    change (_poll_thread (_drain_queue (self w)) = _poll_thread (self w)) in Hp.
    change (running (_drain_queue (self w)) = running (self w)) in Hrun.
    cbn [set_self self]. by rewrite Hrun, Hp.
  - destruct (threads w !! tid) as [[p|r]|]; try done.
    destruct (decide (poll_at p = In_tick)) as [Hpc|Hpc].
    + rewrite (poll_step_tick _ _ _ _ Hpc). cbn [set_thread set_self self].
      destruct (poll_try_account e p (self w)) as (_ & _ & -> & _ & _ & ->).
      done.
    + by rewrite poll_step_self.
  - destruct (threads w !! tid) as [[p|t]|]; try done.
    unfold range_step. destruct (worker_alive t); [|done]. by destruct r.
Qed.

(** What [start] leaves behind when it has set the flag. *)
Lemma start_sets_session e w :
  running (self w) = false ->
  running (self (start e w)) = true ->
  api (self (start e w)) <> None
  /\ truthy (user_id (self (start e w))) = true
  /\ monitoring_start (self (start e w)) = Some (start_now e)
  /\ _tweet_ids (self (start e w)) = ∅
  /\ _poll_thread (self (start e w)) = Some (length (threads w))
  /\ exists p, threads (start e w) = threads w ++ [Poll p]
               /\ fresh_thread (Poll p).
Proof.
  intros Hidle. unfold start. rewrite Hidle.
  destruct (String.eqb _ _); [cbn; congruence|].
  destruct (int_of_str _) as [n|]; [|cbn; congruence].
  unfold start_connect.
  destruct (new_api e) as [err|a]; [cbn; congruence|].
  destruct (start_user_info e) as [err|info]; [cbn; congruence|].
  cbn [user_id set_user_id].
  destruct (truthy _) eqn:Hid; cbn [negb]; [|cbn; congruence].
  intros _. cbn. repeat split; try done.
  eexists. split; [reflexivity|]. cbn. split; [lia|done].
Qed.


(** X7. A [start] on an idle monitor with a username, an interval that reads
    as an integer, and a lookup that yields an id: the flag is set, the API
    object and the id are stored, the session starts now with an empty dedup
    set and no range count, and exactly one poll thread is created for the
    username without its leading [@]s, at the interval raised to 5 if it was
    lower.  The queue is not emptied, no box is shown, and the range label
    is left as it was. *)
Theorem start_success (e : start_env) (w : World) (n : Z) (a : TwitterAPI)
    (info : option pydict) :
  running (self w) = false ->
  lstrip_char "@" (strip (username_var (ui (self w)))) <> "" ->
  int_of_str (str_or (strip (interval_var (ui (self w)))) "60") = Some n ->
  new_api e = inr a ->
  start_user_info e = inr info ->
  truthy (resolved_id (inr info)) = true ->
  let w' := start e w in
  let username := lstrip_char "@" (strip (username_var (ui (self w)))) in
  running (self w') = true
  /\ api (self w') = Some a
  /\ user_id (self w') = resolved_id (inr info)
  /\ monitoring_start (self w') = Some (start_now e)
  /\ _tweet_ids (self w') = ∅
  /\ range_count (self w') = None
  /\ threads w' = threads w ++ [Poll (mkPoll username (Z.max 5 n) 0 At_assert)]
  /\ _poll_thread (self w') = Some (length (threads w))
  /\ _q (self w') = _q (self w)
  /\ dialogs w' = dialogs w
  /\ log (ui (self w')) = log (ui (self w)) ++ [Log_connected username]
  /\ mode_var (ui (self w')) = (if demo_mode a then Mode_demo else Mode_live)
  /\ range_var (ui (self w')) = range_var (ui (self w)).
Proof.
  intros Hidle Hname Hint Hapi Hinfo Hid. cbv zeta.
  unfold start. rewrite Hidle, Hint.
  destruct (String.eqb_spec (lstrip_char "@" (strip (username_var (ui (self w))))) "")
    as [Hempty|_]; [done|].
  unfold start_connect. rewrite Hapi, Hinfo.
  cbn [resolved_id] in Hid. cbn [user_id set_user_id]. rewrite Hid. done.
Qed.

(** X8. In every world the program can reach, a set flag comes with a
    session: an API object, a truthy account id, a session start, and a poll
    thread named by [_poll_thread].  So a range request made while the
    monitor runs is never answered "Not running". *)
Theorem running_has_session (getenv : string -> option string)
    (trace : list action) :
  let w := run lib (MonitorGUI_init getenv) trace in
  running (self w) = true ->
  api (self w) <> None
  /\ truthy (user_id (self w)) = true
  /\ monitoring_start (self w) <> None
  /\ (exists tid p, _poll_thread (self w) = Some tid
                    /\ threads w !! tid = Some (Poll p))
  /\ dialogs (count_range lib w)
     <> dialogs w ++ [showinfo "Not running"
                        "Start monitoring first (so we know the user id)."].
Proof.
  cbv zeta.
  assert (Hinv : running (self (run lib (MonitorGUI_init getenv) trace)) = true ->
    api (self (run lib (MonitorGUI_init getenv) trace)) <> None
    /\ truthy (user_id (self (run lib (MonitorGUI_init getenv) trace))) = true
    /\ monitoring_start (self (run lib (MonitorGUI_init getenv) trace)) <> None
    /\ (exists tid p,
          _poll_thread (self (run lib (MonitorGUI_init getenv) trace)) = Some tid
          /\ threads (run lib (MonitorGUI_init getenv) trace) !! tid
             = Some (Poll p))).
  { induction trace as [|a trace IH] using rev_ind; [done|].
    rewrite run_app, run_cons. cbn [run fold_left].
    set (w := run lib (MonitorGUI_init getenv) trace) in *.
    intros Hrun.
    destruct (classic_start a) as [[e ->]|Hns].
    - cbn [step] in *. destruct (running (self w)) eqn:Hw.
      + assert (start e w = w) as -> by (unfold start; by rewrite Hw).
        by apply IH.
      + destruct (start_sets_session e w Hw Hrun)
          as (Ha & Hu & Hm & _ & Hp & p & Hth & _).
        split; [done|]. split; [done|]. split; [by rewrite Hm|].
        exists (length (threads w)), p. split; [done|].
        rewrite Hth. by apply lookup_snoc_Some; right.
    - destruct (step_account lib w a Hns) as (Ha & Hu & Hm).
      destruct (step_flag_frame w a Hns) as (Hp & Hr).
      destruct (IH (Hr Hrun)) as (Ha' & Hu' & Hm' & tid & p & Hp' & Hth).
      rewrite Ha, Hu, Hm, Hp. split; [done|]. split; [done|]. split; [done|].
      destruct (step_threads_persist w a tid _ Hth) as ([p'|r'] & Hth' & Hsucc);
        [|done].
      by exists tid, p'. }
  intros Hrun. destruct (Hinv Hrun) as (Ha & Hu & Hm & Hp).
  split; [done|]. split; [done|]. split; [done|]. split; [done|].
  set (w := run lib (MonitorGUI_init getenv) trace) in *.
  unfold count_range. rewrite Hu.
  rewrite bool_decide_eq_true_2 by (destruct (api (self w)); [by eexists|done]).
  cbn [negb orb].
  assert (Hlen : forall d, dialogs w <> dialogs w ++ [d]).
  { intros d Hd. apply (f_equal length) in Hd. rewrite length_app in Hd.
    cbn in Hd. lia. }
  destruct (parse_dt _ _);
    [|intros [=]%app_inv_head].
  destruct (parse_dt _ _);
    [|intros [=]%app_inv_head].
  destruct (_ <=? _); [intros [=]%app_inv_head|].
  destruct (range_busy w); apply Hlen.
Qed.


(** ** A poll thread after [stop] *)

(** With the flag cleared, a slice brings a poll thread nearer to its return;
    only the slice that completes a fetch puts a message, and only one. *)
Lemma poll_slice_stopped tid e p w :
  threads w !! tid = Some (Poll p) ->
  running (self w) = false ->
  exists p', threads (step lib w (Poll_thread_runs tid e)) !! tid = Some (Poll p')
    /\ running (self (step lib w (Poll_thread_runs tid e))) = false
    /\ (slices_to_return (poll_at p') <= pred (slices_to_return (poll_at p)))%nat
    /\ (length (_q (self (step lib w (Poll_thread_runs tid e))))
        <= length (_q (self w))
           + (if decide (poll_at p = In_tick) then 1 else 0))%nat.
Proof.
  intros Hth Hidle. rewrite (step_poll _ _ _ _ _ Hth). unfold poll_step.
  destruct (poll_at p) as [| | |[|k]|] eqn:Hpc.
  - destruct (_ && _); eexists;
      (split; [by eapply set_thread_lookup|]); cbn; repeat split; (done || lia).
  - rewrite Hidle. eexists.
    split; [by eapply set_thread_lookup|]. cbn. repeat split; (done || lia).
  - destruct (poll_try_shape e p (self w)) as (m & ids & ->).
    eexists. split; [by eapply set_thread_lookup|]. cbn.
    rewrite length_app. cbn. repeat split; (done || lia).
  - eexists. split; [by eapply set_thread_lookup|]. cbn.
    repeat split; (done || lia).
  - rewrite Hidle. cbn [negb]. eexists.
    split; [by eapply set_thread_lookup|]. cbn. repeat split; (done || lia).
  - exists p. rewrite Hpc. cbn. repeat split; (done || lia).
Qed.

(** X9. Once the flag is cleared and [start] is not called again, a poll
    thread returns within three of its slices, wherever it stands, and puts
    at most one more message on the queue (the one of a fetch that was in
    flight). *)
Theorem poll_returns_after_stop (tid : nat) (e : tick_env) (p : poll_thread)
    (w : World) :
  threads w !! tid = Some (Poll p) ->
  running (self w) = false ->
  let w' := run lib w (poll_alone tid e 3) in
  (exists p', threads w' !! tid = Some (Poll p') /\ poll_at p' = Poll_returned)
  /\ running (self w') = false
  /\ (length (_q (self w')) <= length (_q (self w)) + 1)%nat.
Proof.
  intros Hth Hidle. cbv zeta.
  change (poll_alone tid e 3)
    with [Poll_thread_runs tid e; Poll_thread_runs tid e; Poll_thread_runs tid e].
  rewrite !run_cons. cbn [run fold_left].
  destruct (poll_slice_stopped tid e p w Hth Hidle) as (p1 & Hth1 & Hidle1 & Hm1 & Hq1).
  destruct (poll_slice_stopped tid e p1 _ Hth1 Hidle1) as (p2 & Hth2 & Hidle2 & Hm2 & Hq2).
  destruct (poll_slice_stopped tid e p2 _ Hth2 Hidle2) as (p3 & Hth3 & Hidle3 & Hm3 & Hq3).
  split; [|split; [done|]].
  - exists p3. split; [done|].
    destruct (poll_at p) as [| | |?|], (poll_at p1) as [| | |?|],
      (poll_at p2) as [| | |?|], (poll_at p3) as [| | |?|]; cbn in *; done || lia.
  - destruct (decide (poll_at p1 = In_tick)) as [E1|_];
      [rewrite E1 in Hm1; destruct (poll_at p) as [| | |?|]; cbn in Hm1; lia|].
    destruct (decide (poll_at p2 = In_tick)) as [E2|_];
      [rewrite E2 in Hm2; destruct (poll_at p1) as [| | |?|]; cbn in Hm2; lia|].
    destruct (decide (poll_at p = In_tick)); lia.
Qed.


(** ** [stop] then [start] *)

Lemma stop_threads w : threads (stop w) = threads w.
Proof. unfold stop. by destruct (running (self w)). Qed.

Lemma stop_running w : running (self (stop w)) = false.
Proof. unfold stop. by destruct (running (self w)) eqn:Hrun. Qed.

(** X10. [stop] only clears the flag and [start] sets it again without
    waiting for the old thread: when the monitor is stopped and started again
    while its poll thread is asleep, that thread is still there beside the
    new one, never sees the flag cleared, and goes on to its next tick.  Two
    poll loops then run on the same dedup set, which the restart has
    emptied. *)
Theorem restart_leaves_two_loops (tid k : nat) (e : start_env) (e' : tick_env)
    (p : poll_thread) (w : World) :
  threads w !! tid = Some (Poll p) ->
  poll_at p = In_sleep k ->
  running (self w) = true ->
  running (self (start e (stop w))) = true ->
  let w' := start e (stop w) in
  let tid' := length (threads w) in
  tid <> tid'
  /\ threads w' !! tid = Some (Poll p)
  /\ (exists p', threads w' !! tid' = Some (Poll p')
                 /\ is_alive (Poll p') = true)
  /\ is_alive (Poll p) = true
  /\ _tweet_ids (self w') = ∅
  /\ threads (run lib w' (poll_alone tid e' (k + 2))) !! tid
     = Some (Poll (mkPoll (poll_username p) (poll_interval p)
                          (poll_cycle p + 1) In_tick)).
Proof.
  intros Hth Hpc Hrun Hstarted. cbv zeta.
  destruct (start_sets_session e (stop w) (stop_running w) Hstarted)
    as (_ & _ & _ & Hids & _ & p' & Hthreads & Hfresh).
  rewrite stop_threads in Hthreads.
  pose proof (lookup_lt_Some _ _ _ Hth) as Hlt.
  assert (Hth' : threads (start e (stop w)) !! tid = Some (Poll p)).
  { rewrite Hthreads, lookup_app_l by done. done. }
  split; [lia|]. split; [done|]. split; [|split; [|split; [done|]]].
  - exists p'. split.
    + rewrite Hthreads. by apply lookup_snoc_Some; right.
    + cbn in Hfresh. destruct Hfresh as (_ & _ & Hat). cbn. by rewrite Hat.
  - cbn. by rewrite Hpc.
  - by destruct (poll_sleeps_then_ticks lib tid e' k _ p Hth' Hpc Hstarted)
      as [_ ->].
Qed.


(** ** More on the dedup loop and the counts *)

Lemma observe_known tweets : forall ids,
  (forall t, t ∈ tweets -> id t ∈ ids) -> observe ids tweets = ([], ids).
Proof.
  induction tweets as [|t tweets IH]; intros ids Hknown; [done|].
  rewrite observe_cons. destruct (decide (id t ∈ ids)) as [_|Hout].
  - apply IH. intros t' Ht'. apply Hknown. by apply list_elem_of_further.
  - destruct Hout. apply Hknown. apply list_elem_of_here.
Qed.

Lemma observe_fresh tweets : forall ids,
  NoDup (id <$> tweets) ->
  (forall t, t ∈ tweets -> id t ∉ ids) ->
  observe ids tweets = (tweets, ids ∪ list_to_set (id <$> tweets)).
Proof.
  induction tweets as [|t tweets IH]; intros ids Hnd Hfresh.
  - rewrite observe_nil. cbn. by rewrite union_empty_r_L.
  - rewrite fmap_cons in Hnd. apply NoDup_cons in Hnd as [Hhead Hnd].
    rewrite observe_cons. destruct (decide (id t ∈ ids)) as [Hin|_].
    { destruct (Hfresh t); [apply list_elem_of_here|done]. }
    rewrite IH; [|done|].
    + cbn [fst snd]. rewrite fmap_cons, list_to_set_cons.
      by rewrite (assoc_L (∪)).
    + intros t' Ht' [Hin|Heq%elem_of_singleton]%elem_of_union.
      * by apply (Hfresh t'); [apply list_elem_of_further|].
      * apply Hhead. rewrite <- Heq. by apply list_elem_of_fmap_2.
Qed.

(** X11. When no fetched id is in the dedup set and the fetched ids are
    distinct (the first tick of a session, whose set [start] has emptied,
    is the case in point), every fetched post is reported as new, in fetch
    order, and the set becomes the old one plus the fetched ids. *)
Theorem first_poll_all_new (ids : gset string) (tweets : list Tweet) :
  NoDup (id <$> tweets) ->
  (forall t, t ∈ tweets -> id t ∉ ids) ->
  observe ids tweets = (tweets, ids ∪ list_to_set (id <$> tweets))
  /\ observe ∅ tweets = (tweets, list_to_set (id <$> tweets)).
Proof.
  intros Hnd Hfresh. split; [by apply observe_fresh|].
  rewrite observe_fresh; [|done|].
  - by rewrite union_empty_l_L.
  - intros t _. apply not_elem_of_empty.
Qed.

(** X12. The loop looks at ids only: after a fetch, a second fetch that
    brings no id the first did not bring (the same posts, whatever their
    counters have become) reports nothing as new and leaves the set as it
    is. *)
Theorem repoll_nothing_new (ids : gset string) (tweets tweets' : list Tweet) :
  (forall t', t' ∈ tweets' -> id t' ∈ id <$> tweets) ->
  observe (observe ids tweets).2 tweets' = ([], (observe ids tweets).2).
Proof.
  intros Hsame. apply observe_known. intros t' Ht'.
  rewrite observe_ids. apply elem_of_union_r, elem_of_list_to_set.
  by apply Hsame.
Qed.

Lemma count_since_antitone tweets b1 b2 :
  b1 <= b2 ->
  0 <= count_since tweets b2 <= count_since tweets b1
  /\ count_since tweets b1 <= Z.of_nat (length tweets).
Proof.
  intros Hb. rewrite !count_since_filter.
  induction tweets as [|t tweets IH]; [cbn; lia|].
  rewrite !filter_cons. cbn [length].
  repeat case_decide; cbn [length]; lia.
Qed.

(** X13. The two counts of an update: each lies between 0 and the number of
    fetched tweets; when the session began at or after midnight of the
    clock reading, the session count is at most the count of today, and when
    it began at or before that midnight, it is at least the count of today. *)
Theorem update_counts_ordered (e : tick_env) (p : poll_thread) (g : MonitorGUI)
    (tweets : list Tweet) (info : option pydict) (session : datetime) :
  api g <> None ->
  monitoring_start g = Some session ->
  recent_tweets e = inr tweets ->
  (if refresh_due (poll_cycle p) (poll_interval p)
   then user_info e = inr info else info = None) ->
  exists new today period,
    _q (poll_try e p g)
    = _q g ++ [MsgUpdate (tick_now e) tweets new today period info]
    /\ 0 <= today <= Z.of_nat (length tweets)
    /\ 0 <= period <= Z.of_nat (length tweets)
    /\ (replace_midnight (tick_now e) <= session -> period <= today)
    /\ (session <= replace_midnight (tick_now e) -> today <= period).
Proof.
  intros Hapi Hms Htw Hinfo.
  rewrite (poll_try_success e p g tweets info Hapi Htw Hinfo), Hms.
  eexists _, _, _. split; [reflexivity|].
  change (default (tick_now e) (Some session)) with session.
  pose proof (count_since_antitone tweets _ _
                (Z.le_refl (replace_midnight (tick_now e)))) as Ht.
  pose proof (count_since_antitone tweets _ _ (Z.le_refl session)) as Hp.
  split; [lia|]. split; [lia|]. split; intros Hle.
  - pose proof (count_since_antitone tweets _ _ Hle). lia.
  - pose proof (count_since_antitone tweets _ _ Hle). lia.
Qed.

(** X14. The user info is fetched on the first cycle and then on every
    [k]-th cycle, where [k = max(1, 300 // interval)]: for an interval of at
    least 5 seconds the sleep between two such fetches, [k * interval]
    seconds, is more than [300 - interval] and at most [max(300, interval)];
    above 150 seconds it is fetched on every cycle. *)
Theorem refresh_policy (cycle interval : Z) :
  5 <= interval ->
  let k := Z.max 1 (300 / interval) in
  refresh_due 1 interval = true
  /\ (refresh_due cycle interval = true <-> cycle = 1 \/ cycle mod k = 0)
  /\ 300 - interval < k * interval <= Z.max 300 interval
  /\ (if 150 <? interval then refresh_due cycle interval = true else 2 <= k).
Proof.
  intros Hint. cbv zeta. unfold refresh_due.
  replace (Z.max 1 interval) with interval by lia.
  assert (Hq : 0 <= 300 / interval) by (apply Z.div_pos; lia).
  pose proof (Z.div_mod 300 interval ltac:(lia)) as Hdm.
  pose proof (Z.mod_pos_bound 300 interval ltac:(lia)) as Hmod.
  split; [by rewrite orb_true_r|]. split; [|split].
  - rewrite orb_true_iff, !Z.eqb_eq. tauto.
  - destruct (Z.max_spec 1 (300 / interval)) as [[Hlt ->]|[Hge ->]]; nia.
  - destruct (Z.ltb_spec 150 interval) as [Hbig|Hsmall].
    + assert (300 / interval <= 1) as Hk.
      { apply Z.lt_succ_r. apply Z.div_lt_upper_bound; lia. }
      replace (Z.max 1 (300 / interval)) with 1 by lia.
      by rewrite Z.mod_1_r.
    + assert (2 <= 300 / interval) by (apply Z.div_le_lower_bound; lia). lia.
Qed.


(** ** Range requests and their result *)

Lemma guard_passes w :
  api (self w) <> None -> truthy (user_id (self w)) = true ->
  negb (bool_decide (is_Some (api (self w)))) || negb (truthy (user_id (self w)))
  = false.
Proof.
  intros Hapi ->. rewrite bool_decide_eq_true_2; [done|].
  destruct (api (self w)); [by eexists|done].
Qed.

(** X15. On a started monitor, a range request with a start entry or an end
    entry that is empty or blank shows the "Invalid range" box with the
    example, and nothing else happens: no thread, no message, the label and
    the log are as before. *)
Theorem count_range_blank_entry (w : World) :
  api (self w) <> None ->
  truthy (user_id (self w)) = true ->
  string_all isspace (range_start_var (ui (self w))) = true
  \/ string_all isspace (range_end_var (ui (self w))) = true ->
  count_range lib w
  = messagebox
      (showerror "Invalid range"
         "Enter start/end like '2026-01-26 09:00' and '2026-01-26 18:00'.") w.
Proof.
  intros Hapi Hid Hblank. unfold count_range.
  rewrite guard_passes by done.
  destruct Hblank as [Hs|He].
  - by rewrite (parse_dt_of_blank _ Hs).
  - rewrite (parse_dt_of_blank _ He). by destruct (parse_dt _ _).
Qed.

(** X16. A valid range request made while a worker is in flight is not
    refused visibly: no box is shown and no thread is created, the range
    label is set to "..." and a "Counting" line for the new range is logged.
    When the worker in flight then returns with a count and the queue is
    drained, the label shows that count: the count of the earlier range,
    which the worker still holds, not of the range just entered. *)
Theorem busy_request_shows_earlier_count (w : World) (tid : nat)
    (r : range_thread) (a b : datetime) (n : Z) :
  api (self w) <> None ->
  truthy (user_id (self w)) = true ->
  parse_dt lib (range_start_var (ui (self w))) = Some a ->
  parse_dt lib (range_end_var (ui (self w))) = Some b ->
  a < b ->
  _range_thread (self w) = Some tid ->
  threads w !! tid = Some (Range r) ->
  worker_alive r = true ->
  let w1 := count_range lib w in
  let w2 := step lib w1 (Range_thread_returns tid (inr n)) in
  let w3 := step lib w2 After_drain_queue in
  threads w1 = threads w
  /\ dialogs w1 = dialogs w
  /\ range_var (ui (self w1)) = Range_dots
  /\ log (ui (self w1)) = log (ui (self w)) ++ [Log_counting a b]
  /\ threads w2 !! tid
     = Some (Range (mkRange (worker_start r) (worker_end r) false))
  /\ range_var (ui (self w3)) = Range_value (Some n)
  /\ range_count (self w3) = Some n.
Proof.
  intros Hapi Hid Ha Hb Hab Hrt Hth Halive. cbv zeta.
  assert (Hbusy : range_busy w = true).
  { unfold range_busy. by rewrite Hrt, Hth. }
  assert (Hcr : count_range lib w
    = set_self (_log_line (Log_counting a b)
                  (set_ui (set_range_var Range_dots (ui (self w))) (self w))) w).
  { unfold count_range. rewrite guard_passes, Ha, Hb, Hbusy by done.
    destruct (Z.leb_spec b a); [lia|done]. }
  rewrite Hcr. set (w1 := set_self _ w).
  assert (Hth1 : threads w1 !! tid = Some (Range r)) by done.
  rewrite (step_range _ _ _ _ _ Hth1). unfold range_step. rewrite Halive.
  cbn [worker]. set (w2 := set_thread _ _ _).
  assert (Hdrain : self (step lib w2 After_drain_queue)
            = set_q [] (dispatch (fold_left dispatch (_q (self w)) (self w2))
                                 (MsgRange n))).
  { cbn [step set_self self]. by apply drain_snoc. }
  rewrite Hdrain.
  repeat split; try done.
  by eapply set_thread_lookup.
Qed.

Lemma count_range_spawns w a b :
  api (self w) <> None ->
  truthy (user_id (self w)) = true ->
  parse_dt lib (range_start_var (ui (self w))) = Some a ->
  parse_dt lib (range_end_var (ui (self w))) = Some b ->
  a < b ->
  range_busy w = false ->
  count_range lib w
  = spawn (Range (mkRange a b true))
      (set_self
         (set_range_thread (Some (length (threads w)))
            (_log_line (Log_counting a b)
               (set_ui (set_range_var Range_dots (ui (self w))) (self w))))
         w).
Proof.
  intros Hapi Hid Ha Hb Hab Hidle. unfold count_range.
  rewrite guard_passes, Ha, Hb, Hidle by done.
  destruct (Z.leb_spec b a); [lia|done].
Qed.

Lemma dispatch_not_range g m :
  not_range m ->
  range_var (ui (dispatch g m)) = range_var (ui g)
  /\ range_count (dispatch g m) = range_count g.
Proof.
  destruct m as [now tweets new today period info|count|err]; try done.
  intros _. cbn [dispatch]. unfold _apply_update. by destruct (dict_truthy info).
Qed.

Lemma fold_dispatch_not_range q : forall g,
  Forall not_range q ->
  range_var (ui (fold_left dispatch q g)) = range_var (ui g)
  /\ range_count (fold_left dispatch q g) = range_count g.
Proof.
  induction q as [|m q IH]; intros g Hq; [done|].
  apply Forall_cons in Hq as [Hm Hq]. cbn [fold_left].
  destruct (IH (dispatch g m) Hq) as [-> ->]. by apply dispatch_not_range.
Qed.

(** X17. The round trip of a range count: a valid request on a started, idle
    monitor sets the label to "..."; when the worker returns with a count
    and the queue is drained, [range_count] holds the count, the label shows
    it, the log ends with it, and the queue is empty. *)
Theorem range_count_round_trip (w : World) (a b : datetime) (n : Z) :
  api (self w) <> None ->
  truthy (user_id (self w)) = true ->
  parse_dt lib (range_start_var (ui (self w))) = Some a ->
  parse_dt lib (range_end_var (ui (self w))) = Some b ->
  a < b ->
  range_busy w = false ->
  let w1 := count_range lib w in
  let w2 := step lib w1 (Range_thread_returns (length (threads w)) (inr n)) in
  let w3 := step lib w2 After_drain_queue in
  range_var (ui (self w1)) = Range_dots
  /\ range_count (self w3) = Some n
  /\ range_var (ui (self w3)) = Range_value (Some n)
  /\ last (log (ui (self w3))) = Some (Log_range_count (Some n))
  /\ _q (self w3) = []
  /\ range_busy w3 = false.
Proof.
  intros Hapi Hid Ha Hb Hab Hidle. cbv zeta.
  rewrite (count_range_spawns w a b) by done.
  set (w1 := spawn _ _).
  assert (Hth1 : threads w1 !! length (threads w) = Some (Range (mkRange a b true))).
  { unfold w1. cbn [spawn threads set_self].
    rewrite lookup_app_r by lia. by rewrite Nat.sub_diag. }
  rewrite (step_range _ _ _ _ _ Hth1). unfold range_step.
  cbn [worker_alive worker_start worker_end worker].
  set (w2 := set_thread _ _ _).
  assert (Hdrain : self (step lib w2 After_drain_queue)
            = set_q [] (dispatch (fold_left dispatch (_q (self w)) (self w2))
                                 (MsgRange n))).
  { cbn [step set_self self]. by apply drain_snoc. }
  split; [done|].
  assert (Hbusy : range_busy (step lib w2 After_drain_queue) = false).
  { unfold range_busy. cbn [step threads set_self self].
    pose proof (drain_session (self w2)) as Hs. unfold session_fields in Hs.
    injection Hs as _ _ _ _ _ _ Hr.
    change (_range_thread (_drain_queue (self w2)) = _range_thread (self w2)) in Hr.
    rewrite Hr. cbn. rewrite list_lookup_insert_eq; [done|].
    rewrite length_app. cbn. lia. }
  rewrite Hdrain. cbn [dispatch _log_line set_ui set_range_count set_q
                       range_count ui range_var set_range_var log set_log _q].
  repeat split; try done.
  by rewrite last_snoc.
Qed.

(** X18. A range count that fails: when the worker's API call raises, the
    worker puts an error event instead of a range event; after the drain the
    error is logged, and, no range event being on the queue, the label still
    shows "..." and [range_count] is what it was. *)
Theorem range_count_failure (w : World) (a b : datetime) (err : string) :
  api (self w) <> None ->
  truthy (user_id (self w)) = true ->
  parse_dt lib (range_start_var (ui (self w))) = Some a ->
  parse_dt lib (range_end_var (ui (self w))) = Some b ->
  a < b ->
  range_busy w = false ->
  Forall not_range (_q (self w)) ->
  let w1 := count_range lib w in
  let w2 := step lib w1 (Range_thread_returns (length (threads w)) (inl err)) in
  let w3 := step lib w2 After_drain_queue in
  _q (self w2) = _q (self w) ++ [MsgError err]
  /\ range_var (ui (self w3)) = Range_dots
  /\ range_count (self w3) = range_count (self w)
  /\ last (log (ui (self w3))) = Some (Log_error err)
  /\ _q (self w3) = [].
Proof.
  intros Hapi Hid Ha Hb Hab Hidle Hq. cbv zeta.
  rewrite (count_range_spawns w a b) by done.
  set (w1 := spawn _ _).
  assert (Hth1 : threads w1 !! length (threads w) = Some (Range (mkRange a b true))).
  { unfold w1. cbn [spawn threads set_self].
    rewrite lookup_app_r by lia. by rewrite Nat.sub_diag. }
  rewrite (step_range _ _ _ _ _ Hth1). unfold range_step.
  cbn [worker_alive worker_start worker_end worker].
  set (w2 := set_thread _ _ _).
  assert (Hdrain : self (step lib w2 After_drain_queue)
            = set_q [] (dispatch (fold_left dispatch (_q (self w)) (self w2))
                                 (MsgError err))).
  { cbn [step set_self self]. by apply drain_snoc. }
  split; [done|]. rewrite Hdrain.
  destruct (fold_dispatch_not_range (_q (self w)) (self w2) Hq) as [Hv Hc].
  cbn [dispatch _log_line set_ui set_q range_count ui range_var log set_log _q].
  rewrite Hv, Hc. repeat split; try done.
  by rewrite last_snoc.
Qed.


(** ** The drain and the widgets *)

Lemma dispatch_set_q g m q : dispatch (set_q q g) m = set_q q (dispatch g m).
Proof. by destruct m. Qed.

Lemma fold_dispatch_set_q ms : forall g q,
  fold_left dispatch ms (set_q q g) = set_q q (fold_left dispatch ms g).
Proof.
  induction ms as [|m ms IH]; intros g q; [done|].
  cbn [fold_left]. by rewrite dispatch_set_q, IH.
Qed.

(** X19. The drain empties the queue and assigns none of the fields that
    [start], [stop] and the poll loop own; a second drain changes nothing;
    and draining a queue in two batches leaves the object as draining it at
    once does, so that it does not matter when the timer fires. *)
Theorem drain_in_batches (g : MonitorGUI) (q1 q2 : list msg) :
  _q (_drain_queue g) = []
  /\ session_fields (_drain_queue g) = session_fields g
  /\ _drain_queue (_drain_queue g) = _drain_queue g
  /\ _drain_queue (set_q (q1 ++ q2) g)
     = _drain_queue (set_q q2 (_drain_queue (set_q q1 g))).
Proof.
  split; [done|]. split; [apply drain_session|]. split; [done|].
  unfold _drain_queue. cbn [_q set_q].
  rewrite !fold_dispatch_set_q, fold_left_app. done.
Qed.

Lemma insert_newest_first_perm t l : insert_newest_first t l ≡ₚ t :: l.
Proof.
  induction l as [|x l IH]; [done|]. cbn [insert_newest_first].
  destruct (created_at t <? created_at x); [|done].
  rewrite IH. apply Permutation_swap.
Qed.

Lemma sorted_newest_first_perm tweets : sorted_newest_first tweets ≡ₚ tweets.
Proof.
  induction tweets as [|t tweets IH]; [done|].
  unfold sorted_newest_first in *. cbn [foldr].
  by rewrite insert_newest_first_perm, IH.
Qed.

Lemma insert_newest_first_sorted t l :
  StronglySorted not_older l -> StronglySorted not_older (insert_newest_first t l).
Proof.
  induction 1 as [|x l Hl IH Hx]; [repeat constructor|].
  cbn [insert_newest_first].
  destruct (Z.ltb_spec (created_at t) (created_at x)) as [Hlt|Hge].
  - constructor; [done|].
    rewrite insert_newest_first_perm. constructor; [unfold not_older; lia|done].
  - constructor; [by constructor|]. constructor; [done|].
    eapply Forall_impl; [exact Hx|]. unfold not_older. intros y Hy. lia.
Qed.

Lemma sorted_newest_first_sorted tweets :
  StronglySorted not_older (sorted_newest_first tweets).
Proof.
  induction tweets as [|t tweets IH]; [constructor|].
  by apply insert_newest_first_sorted.
Qed.

(** Tweets of one timestamp keep their order. *)
Lemma insert_newest_first_stable v t l :
  filter (fun x => created_at x = v) (insert_newest_first t l)
  = filter (fun x => created_at x = v) (t :: l).
Proof.
  induction l as [|x l IH]; [done|]. cbn [insert_newest_first].
  destruct (Z.ltb_spec (created_at t) (created_at x)) as [Hlt|Hge]; [|done].
  rewrite (filter_cons _ x), IH, !filter_cons.
  repeat case_decide; (done || lia).
Qed.

Lemma sorted_newest_first_stable v tweets :
  filter (fun x => created_at x = v) (sorted_newest_first tweets)
  = filter (fun x => created_at x = v) tweets.
Proof.
  induction tweets as [|t tweets IH]; [done|].
  unfold sorted_newest_first in *. cbn [foldr].
  by rewrite insert_newest_first_stable, !filter_cons, IH.
Qed.

(** X20. The table after an update: its rows are fetched tweets, at most 50
    of them (all of them when no more than 50 were fetched), newest first,
    tweets of one timestamp in fetch order; sorting loses and adds
    nothing. *)
Theorem tree_newest_first (now : datetime) (tweets new : list Tweet)
    (today period : Z) (info : option pydict) (g : MonitorGUI) (v : datetime) :
  let rows := tree (ui (_apply_update now tweets new today period info g)) in
  length rows = Nat.min 50 (length tweets)
  /\ StronglySorted not_older rows
  /\ (forall t, t ∈ rows -> t ∈ tweets)
  /\ sorted_newest_first tweets ≡ₚ tweets
  /\ rows `prefix_of` sorted_newest_first tweets
  /\ filter (fun x => created_at x = v) (sorted_newest_first tweets)
     = filter (fun x => created_at x = v) tweets.
Proof.
  cbv zeta.
  assert (Hrows : tree (ui (_apply_update now tweets new today period info g))
                  = take 50 (sorted_newest_first tweets)).
  { unfold _apply_update. by destruct (dict_truthy info). }
  rewrite Hrows. split; [|split; [|split; [|split; [|split]]]].
  - by rewrite length_take, sorted_newest_first_perm.
  - pose proof (sorted_newest_first_sorted tweets) as Hs.
    rewrite <- (take_drop 50 (sorted_newest_first tweets)) in Hs.
    by apply StronglySorted_app_1_l in Hs.
  - intros t Ht. rewrite <- sorted_newest_first_perm.
    by apply (subseteq_take 50 (sorted_newest_first tweets)).
  - apply sorted_newest_first_perm.
  - apply prefix_take.
  - apply sorted_newest_first_stable.
Qed.

Ltac grows := first [reflexivity | by eexists].

Lemma dispatch_log g m : log (ui g) `prefix_of` log (ui (dispatch g m)).
Proof.
  destruct m as [now tweets new today period info|count|err].
  - cbn [dispatch]. unfold _apply_update.
    destruct (dict_truthy info); by eexists.
  - by eexists.
  - by eexists.
Qed.

Lemma fold_dispatch_log q : forall g,
  log (ui g) `prefix_of` log (ui (fold_left dispatch q g)).
Proof.
  induction q as [|m q IH]; intros g; [done|]. cbn [fold_left].
  etrans; [apply dispatch_log|apply IH].
Qed.

(** X21. The activity log and the list of message boxes only grow: whatever
    happens, what was logged or shown before is still there, in order, at
    the head of the new log and of the new list. *)
Theorem log_append_only (w : World) (a : action) :
  log (ui (self w)) `prefix_of` log (ui (self (step lib w a)))
  /\ dialogs w `prefix_of` dialogs (step lib w a).
Proof.
  destruct a as [u i rs re|e| | | |tid e|tid r]; cbn [step].
  - done.
  - unfold start.
    destruct (running (self w)); [done|].
    destruct (String.eqb _ _); [split; grows|].
    destruct (int_of_str _) as [n|]; [|split; grows].
    unfold start_connect.
    destruct (new_api e) as [err|api0]; [split; grows|].
    destruct (start_user_info e) as [err|info]; [split; grows|].
    cbn [user_id set_user_id].
    destruct (truthy _); cbn [negb]; split; grows.
  - unfold stop. destruct (running (self w)); [|done]. split; grows.
  - unfold count_range.
    destruct (_ || _); [split; grows|].
    destruct (parse_dt _ _); [|split; grows].
    destruct (parse_dt _ _); [|split; grows].
    destruct (_ <=? _); [split; grows|].
    destruct (range_busy w); split; grows.
  - split; [|done]. cbn [set_self self]. unfold _drain_queue.
    apply (fold_dispatch_log (_q (self w)) (self w)).
  - destruct (threads w !! tid) as [[p|r]|]; try done.
    destruct (decide (poll_at p = In_tick)) as [Hpc|Hpc].
    + rewrite (poll_step_tick _ _ _ _ Hpc). cbn [set_thread set_self self dialogs].
      by destruct (poll_try_shape e p (self w)) as (m & ids & ->).
    + assert (Hd : dialogs (poll_step tid e p w) = dialogs w).
      { unfold poll_step. destruct (poll_at p) as [| | |[|k]|]; try done.
        - by destruct (_ && _).
        - by destruct (running (self w)).
        - by destruct (running (self w)). }
      by rewrite poll_step_self, Hd.
  - destruct (threads w !! tid) as [[p|t]|]; try done.
    unfold range_step. destruct (worker_alive t); [|done]. by destruct r.
Qed.


(** ** [start] without a username *)

Lemma string_all_impl (p q : ascii -> bool) s :
  (forall c, p c = true -> q c = true) ->
  string_all p s = true -> string_all q s = true.
Proof.
  intros Hpq. induction s as [|c s IH]; [done|]. cbn [string_all].
  intros [Hc Hs]%andb_true_iff. by rewrite (Hpq c Hc), IH.
Qed.

Lemma lstrip_none p s :
  string_all (fun c => negb (p c)) s = true -> lstrip_with p s = s.
Proof.
  destruct s as [|c s]; [done|]. cbn [string_all lstrip_with].
  intros [Hc _]%andb_true_iff. by destruct (p c).
Qed.

Lemma strip_none s :
  string_all (fun c => negb (isspace c)) s = true -> strip s = s.
Proof.
  intros Hs. unfold strip, rstrip_with. rewrite (lstrip_none _ s Hs).
  rewrite lstrip_none by (by rewrite string_all_rev).
  apply string_rev_involutive.
Qed.

(** X22. A username entry that holds nothing but [@] signs, with or without
    white space around them (the empty entry included), is refused: [start]
    shows "Missing username" and returns before it builds the API object;
    the object and the threads are as before. *)
Theorem start_missing_username (e : start_env) (w : World) (pre ats post : string) :
  running (self w) = false ->
  string_all isspace pre = true ->
  string_all (Ascii.eqb "@") ats = true ->
  string_all isspace post = true ->
  username_var (ui (self w)) = String.append pre (String.append ats post) ->
  start e w
  = messagebox (showerror "Missing username"
                          "Please enter a username to monitor.") w.
Proof.
  intros Hidle Hpre Hats Hpost Hname. unfold start.
  rewrite Hidle, Hname, strip_app by done.
  rewrite strip_none.
  - unfold lstrip_char. by rewrite lstrip_all.
  - eapply string_all_impl; [|exact Hats].
    intros c Hc%Ascii.eqb_eq. by subst c.
Qed.


(** ** The dashboard: the time range *)

(** X23. With two valid dates, whichever is typed first: the range is the
    two strings with the earlier one first, clamping it again changes
    nothing, and the tweets shown are, in feed order, exactly those whose
    [createdAt] is a valid date between the two, both ends included; typing
    the range backwards shows the same tweets. *)
Theorem dashboard_range_valid (Date : Dashboard.DateParser) (a b : string)
    (x y : Z) (tweets : list Dashboard.tweet) :
  Date a = Some x ->
  Date b = Some y ->
  let range := Dashboard.clampDateRange Date a b in
  let shown := Dashboard.filteredTweets Date range tweets in
  range = Some (if y <? x then (b, a) else (a, b))
  /\ (forall s e, range = Some (s, e) ->
        Date s = Some (Z.min x y) /\ Date e = Some (Z.max x y)
        /\ Dashboard.clampDateRange Date s e = Some (s, e))
  /\ shown `sublist_of` tweets
  /\ (forall t, t ∈ shown <->
        t ∈ tweets
        /\ exists ms, Date (Dashboard.createdAt t) = Some ms
                      /\ Z.min x y <= ms <= Z.max x y)
  /\ Dashboard.filteredTweets Date (Dashboard.clampDateRange Date b a) tweets
     = shown.
Proof.
  intros Ha Hb. cbv zeta.
  assert (Hclamp : forall a b x y, Date a = Some x -> Date b = Some y ->
            Dashboard.clampDateRange Date a b
            = Some (if y <? x then (b, a) else (a, b))).
  { intros a0 b0 x0 y0 Ha0 Hb0. unfold Dashboard.clampDateRange.
    rewrite Ha0, Hb0. cbn. by destruct (y0 <? x0). }
  assert (Hfilter : forall s e lo hi, Date s = Some lo -> Date e = Some hi ->
            Dashboard.filteredTweets Date (Some (s, e)) tweets
            = List.filter
                (fun t => match Date (Dashboard.createdAt t) with
                          | Some ms => (lo <=? ms) && (ms <=? hi)
                          | None => false
                          end) tweets).
  { intros s e lo hi Hs He. unfold Dashboard.filteredTweets.
    rewrite Hs, He. apply List.filter_ext. intros t.
    unfold Dashboard.le, Dashboard.ge.
    by destruct (Date (Dashboard.createdAt t)). }
  rewrite (Hclamp a b x y Ha Hb), (Hclamp b a y x Hb Ha).
  assert (Hshown : forall r,
            r = (if y <? x then (b, a) else (a, b)) \/
            r = (if x <? y then (a, b) else (b, a)) ->
            Dashboard.filteredTweets Date (Some r) tweets
            = List.filter
                (fun t => match Date (Dashboard.createdAt t) with
                          | Some ms => (Z.min x y <=? ms) && (ms <=? Z.max x y)
                          | None => false
                          end) tweets).
  { intros r [-> | ->].
    - destruct (Z.ltb_spec y x).
      + rewrite (Hfilter b a y x Hb Ha). by rewrite Z.min_r, Z.max_l by lia.
      + rewrite (Hfilter a b x y Ha Hb). by rewrite Z.min_l, Z.max_r by lia.
    - destruct (Z.ltb_spec x y).
      + rewrite (Hfilter a b x y Ha Hb). by rewrite Z.min_l, Z.max_r by lia.
      + rewrite (Hfilter b a y x Hb Ha). by rewrite Z.min_r, Z.max_l by lia. }
  split; [done|]. split; [|split; [|split]].
  - intros s e [= Hse]. destruct (Z.ltb_spec y x) as [Hlt|Hge];
      injection Hse as <- <-.
    + rewrite Z.min_r, Z.max_l by lia. split; [done|]. split; [done|].
      rewrite (Hclamp b a y x Hb Ha).
      destruct (Z.ltb_spec x y); [lia|done].
    + rewrite Z.min_l, Z.max_r by lia. split; [done|]. split; [done|].
      rewrite (Hclamp a b x y Ha Hb).
      destruct (Z.ltb_spec y x); [lia|done].
  - rewrite Hshown by (by left). clear.
    induction tweets as [|t tweets IH]; [done|]. cbn [List.filter].
    destruct (match Date (Dashboard.createdAt t) with Some _ => _ | None => _ end).
    + by apply sublist_skip.
    + by apply sublist_cons.
  - intros t. rewrite Hshown by (by left).
    rewrite !list_elem_of_In, List.filter_In.
    destruct (Date (Dashboard.createdAt t)) as [ms|].
    + rewrite andb_true_iff, !Z.leb_le. split.
      * intros [Ht Hms]. split; [done|]. by exists ms.
      * intros [Ht (ms' & [= <-] & Hms)]. done.
    + split; [intros [_ [=]]|intros [_ (ms & [=] & _)]].
  - rewrite !Hshown; [done|by left|by right].
Qed.

(** X24. When either date of the range is invalid, there is no range and no
    tweet is shown. *)
Theorem dashboard_range_invalid (Date : Dashboard.DateParser) (a b : string)
    (tweets : list Dashboard.tweet) :
  Date a = None \/ Date b = None ->
  Dashboard.clampDateRange Date a b = None
  /\ Dashboard.filteredTweets Date (Dashboard.clampDateRange Date a b) tweets = [].
Proof.
  intros Hbad.
  assert (Dashboard.clampDateRange Date a b = None) as ->; [|done].
  unfold Dashboard.clampDateRange.
  destruct Hbad as [-> | ->]; [done|].
  by destruct (Date a).
Qed.

(** ** The dashboard: the mock feed *)

Lemma take_app_take {A} (n : nat) (l k : list A) :
  take n (l ++ take n k) = take n (l ++ k).
Proof.
  rewrite !take_app, take_take. do 2 f_equal. lia.
Qed.

(** X25. The feed after any run of interval firings: it is the arrivals,
    latest first, in front of the feed it started from, cut to 50; so it
    never holds more than 50 tweets, and a tweet that arrives is at the
    top. *)
Theorem feed_after_arrivals (initial : list Dashboard.tweet)
    (arrivals : list (option Dashboard.tweet)) :
  (length initial <= 50)%nat ->
  let feed := fold_left Dashboard.on_interval arrivals initial in
  let arrived := omap (fun a => a) arrivals in
  feed = take 50 (rev arrived ++ initial)
  /\ length feed = Nat.min 50 (length arrived + length initial)
  /\ (forall t, last arrived = Some t -> head feed = Some t).
Proof.
  intros Hlen. cbv zeta.
  assert (Hfeed : fold_left Dashboard.on_interval arrivals initial
                  = take 50 (rev (omap (fun a => a) arrivals) ++ initial)).
  { revert initial Hlen.
    induction arrivals as [|[t|] arrivals IH]; intros initial Hlen.
    - cbn. by rewrite take_ge.
    - cbn [fold_left Dashboard.on_interval omap list_omap].
      rewrite IH by (unfold Dashboard.push_tweet; rewrite length_take; lia).
      unfold Dashboard.push_tweet. rewrite take_app_take.
      cbn [rev]. by rewrite <- app_assoc.
    - cbn [fold_left Dashboard.on_interval omap list_omap]. by apply IH. }
  rewrite Hfeed. split; [done|]. split.
  - by rewrite length_take, length_app, length_rev.
  - intros t [l' Hl']%last_Some. rewrite Hl', rev_app_distr. done.
Qed.


(** ** The dashboard: the value of the date inputs *)

Lemma length_append a b :
  String.length (String.append a b) = (String.length a + String.length b)%nat.
Proof. induction a as [|c a IH]; [done|]. rewrite append_cons. cbn. by rewrite IH. Qed.

Lemma pad_two_digits n :
  0 <= n <= 99 -> exists c1 c2, Dashboard.pad n = String c1 (String c2 "").
Proof.
  intros Hn.
  assert (Hall : forallb (fun k => Nat.eqb (String.length (Dashboard.pad (Z.of_nat k))) 2)
                         (seq 0 100) = true) by (vm_compute; reflexivity).
  rewrite forallb_forall in Hall.
  specialize (Hall (Z.to_nat n)). rewrite Z2Nat.id in Hall by lia.
  assert (Hlen : String.length (Dashboard.pad n) = 2%nat).
  { apply Nat.eqb_eq, Hall, in_seq. lia. }
  destruct (Dashboard.pad n) as [|c1 [|c2 [|c3 s]]]; try done. by eexists _, _.
Qed.

Lemma year_four_digits y :
  1000 <= y <= 9999 ->
  exists c1 c2 c3 c4, pretty y = String c1 (String c2 (String c3 (String c4 ""))).
Proof.
  intros Hy.
  assert (Hall : forallb (fun k => Nat.eqb (String.length (pretty (Z.of_nat k))) 4)
                         (seq 1000 (90 * 100)) = true) by (vm_compute; reflexivity).
  rewrite forallb_forall in Hall.
  specialize (Hall (Z.to_nat y)). rewrite Z2Nat.id in Hall by lia.
  assert (Hlen : String.length (pretty y) = 4%nat).
  { apply Nat.eqb_eq, Hall, in_seq. lia. }
  destruct (pretty y) as [|c1 [|c2 [|c3 [|c4 [|c5 s]]]]]; try done.
  by eexists _, _, _, _.
Qed.

(** X26. For a date with a four-digit year, the value made for the date
    inputs has the sixteen characters of [yyyy-MM-ddTHH:mm]: the dashes at
    4 and 7, the [T] at 10 and the colon at 13, month, day, hour and minute
    on two characters each. *)
Theorem toLocalInputValue_format (fullYear month date hours minutes : Z) :
  1000 <= fullYear <= 9999 ->
  0 <= month <= 11 ->
  1 <= date <= 31 ->
  0 <= hours <= 23 ->
  0 <= minutes <= 59 ->
  let v := Dashboard.toLocalInputValue fullYear month date hours minutes in
  String.length v = 16%nat
  /\ String.get 4 v = Some "-"%char
  /\ String.get 7 v = Some "-"%char
  /\ String.get 10 v = Some "T"%char
  /\ String.get 13 v = Some ":"%char
  /\ String.substring 0 4 v = pretty fullYear
  /\ String.substring 5 2 v = Dashboard.pad (month + 1)
  /\ String.substring 8 2 v = Dashboard.pad date
  /\ String.substring 11 2 v = Dashboard.pad hours
  /\ String.substring 14 2 v = Dashboard.pad minutes.
Proof.
  intros Hy Hmo Hd Hh Hmi. cbv zeta. unfold Dashboard.toLocalInputValue.
  destruct (year_four_digits fullYear Hy) as (y1 & y2 & y3 & y4 & ->).
  destruct (pad_two_digits (month + 1)) as (m1 & m2 & ->); [lia|].
  destruct (pad_two_digits date) as (d1 & d2 & ->); [lia|].
  destruct (pad_two_digits hours) as (h1 & h2 & ->); [lia|].
  destruct (pad_two_digits minutes) as (n1 & n2 & ->); [lia|].
  repeat split; try reflexivity.
  all: cbn; by rewrite ?Ascii.eqb_refl.
Qed.


(** ** The queue *)

(** X27. Whatever the API does, the slice of a poll thread that ends a
    fetch puts exactly one event on the queue, an update or an error: no
    tick is silent, and none puts two. *)
Theorem tick_puts_one_event (tid : nat) (e : tick_env) (p : poll_thread)
    (w : World) :
  threads w !! tid = Some (Poll p) ->
  poll_at p = In_tick ->
  exists m,
    _q (self (step lib w (Poll_thread_runs tid e))) = _q (self w) ++ [m]
    /\ (is_update m = true \/ exists err, m = MsgError err).
Proof.
  intros Hth Hpc.
  rewrite (step_poll _ _ _ _ _ Hth), (poll_step_tick _ _ _ _ Hpc).
  cbn [set_thread set_self self].
  destruct (poll_try_cases e p (self w))
    as [[err ->]|(now & tweets & today & period & info & ->)].
  - eexists. split; [reflexivity|]. right. by eexists.
  - eexists. split; [reflexivity|]. by left.
Qed.

(** Apart from the drain, a transition only appends to the queue, and at
    most one message. *)
Lemma step_queue w a :
  a <> After_drain_queue ->
  _q (self (step lib w a)) = _q (self w) ++ puts lib w a
  /\ (length (puts lib w a) <= 1)%nat.
Proof.
  intros Hnd.
  assert (Hsame : forall w', _q (self w') = _q (self w) ->
            _q (self w') = _q (self w) ++ drop (length (_q (self w))) (_q (self w'))
            /\ (length (drop (length (_q (self w))) (_q (self w'))) <= 1)%nat).
  { intros w' ->. rewrite drop_all, app_nil_r. cbn. split; [done|lia]. }
  assert (Hone : forall w' m, _q (self w') = _q (self w) ++ [m] ->
            _q (self w') = _q (self w) ++ drop (length (_q (self w))) (_q (self w'))
            /\ (length (drop (length (_q (self w))) (_q (self w'))) <= 1)%nat).
  { intros w' m ->. rewrite drop_app_length. cbn. split; [done|lia]. }
  destruct a as [u i rs re|e| | | |tid e|tid r]; cbn [puts]; try done.
  - by apply Hsame.
  - apply Hsame. cbn [step]. unfold start.
    destruct (running (self w)); [done|].
    destruct (String.eqb _ _); [done|].
    destruct (int_of_str _) as [n|]; [|done].
    unfold start_connect.
    destruct (new_api e); [done|].
    destruct (start_user_info e); [done|].
    cbn [user_id set_user_id].
    by destruct (truthy _).
  - apply Hsame. cbn [step]. unfold stop. by destruct (running (self w)).
  - apply Hsame. cbn [step]. unfold count_range.
    destruct (_ || _); [done|].
    destruct (parse_dt _ _); [|done].
    destruct (parse_dt _ _); [|done].
    destruct (_ <=? _); [done|].
    by destruct (range_busy w).
  - cbn [step]. destruct (threads w !! tid) as [[p|r]|] eqn:Hth;
      [|by apply Hsame..].
    destruct (decide (poll_at p = In_tick)) as [Hpc|Hpc].
    + rewrite (poll_step_tick _ _ _ _ Hpc).
      destruct (poll_try_shape e p (self w)) as (m & ids & Hm).
      apply (Hone _ m). cbn [set_thread set_self self]. by rewrite Hm.
    + apply Hsame. by rewrite poll_step_self.
  - cbn [step]. destruct (threads w !! tid) as [[p|t]|] eqn:Hth;
      [by apply Hsame| |by apply Hsame].
    unfold range_step. destruct (worker_alive t); [|by apply Hsame].
    destruct r as [err|count]; by eapply Hone.
Qed.

(** X28. Nothing is lost on the queue and nothing is delivered twice: along
    any trace, what the queue held at the outset followed by everything put
    since is what the drains have taken, in the same order, followed by what
    the queue holds at the end. *)
Theorem queue_conserved (w : World) (trace : list action) :
  _q (self w) ++ emitted lib w trace
  = drained lib w trace ++ _q (self (run lib w trace)).
Proof.
  revert w. induction trace as [|a trace IH]; intros w.
  - cbn. by rewrite app_nil_r.
  - cbn [emitted drained]. rewrite run_cons.
    assert (a = After_drain_queue \/ a <> After_drain_queue) as [->|Hnd]
      by (destruct a; (by left) || (by right)).
    + cbn [puts]. rewrite app_nil_l, <- app_assoc, <- IH. done.
    + destruct (step_queue w a Hnd) as [Hq _].
      rewrite app_assoc, <- Hq, IH.
      by destruct a.
Qed.

End Further.

(** * The theorems at work on sample worlds *)




Lemma count_range_before_start_witness :
  (api (self sample_idle) = None \/ truthy (user_id (self sample_idle)) = false)
  /\ (count_range sample_lib sample_idle
      = messagebox (showinfo "Not running"
                      "Start monitoring first (so we know the user id).")
                   sample_idle
      /\ self (count_range sample_lib sample_idle) = self sample_idle
      /\ threads (count_range sample_lib sample_idle) = threads sample_idle
      /\ _q (self (count_range sample_lib sample_idle)) = _q (self sample_idle)
      /\ engine (run sample_lib (count_range sample_lib sample_idle)
                     [After_drain_queue; Click_stop])
         = engine (run sample_lib sample_idle [After_drain_queue; Click_stop])).
Proof.
  split; [left; reflexivity|].
  apply (count_range_before_start sample_lib sample_idle). left; reflexivity.
Defined.

Lemma count_range_invalid_range_witness :
  api (self sample_reversed) <> None
  /\ truthy (user_id (self sample_reversed)) = true
  /\ parse_dt sample_lib (range_start_var (ui (self sample_reversed)))
     = Some (18 * 3600000000)
  /\ parse_dt sample_lib (range_end_var (ui (self sample_reversed)))
     = Some (9 * 3600000000)
  /\ 18 * 3600000000 >= 9 * 3600000000
  /\ (count_range sample_lib sample_reversed
      = messagebox (showerror "Invalid range"
                      "Range start must be before range end.") sample_reversed
      /\ threads (count_range sample_lib sample_reversed) = threads sample_reversed
      /\ _range_thread (self (count_range sample_lib sample_reversed))
         = _range_thread (self sample_reversed)
      /\ _q (self (count_range sample_lib sample_reversed))
         = _q (self sample_reversed)
      /\ engine (run sample_lib (count_range sample_lib sample_reversed)
                     [After_drain_queue])
         = engine (run sample_lib sample_reversed [After_drain_queue])).
Proof.
  assert (Hapi : api (self sample_reversed) <> None) by (vm_compute; discriminate).
  split; [exact Hapi|]. split; [reflexivity|]. split; [reflexivity|].
  split; [reflexivity|]. split; [lia|].
  apply (count_range_invalid_range sample_lib sample_reversed
           (18 * 3600000000) (9 * 3600000000));
    [exact Hapi|reflexivity|reflexivity|reflexivity|lia].
Defined.


Lemma poll_fetch_failure_witness :
  threads sample_in_tick !! 0%nat = Some (Poll sample_poll)
  /\ poll_at sample_poll = In_tick
  /\ api (self sample_in_tick) <> None
  /\ fetch_fails sample_tick_failing sample_poll "429 Too Many Requests"
  /\ running (self sample_in_tick) = true
  /\ (let w' := step sample_lib sample_in_tick
                     (Poll_thread_runs 0 sample_tick_failing) in
      self w' = q_put (MsgError "429 Too Many Requests") (self sample_in_tick)
      /\ _q (self w')
         = _q (self sample_in_tick) ++ [MsgError "429 Too Many Requests"]
      /\ running (self w') = running (self sample_in_tick)
      /\ _tweet_ids (self w') = _tweet_ids (self sample_in_tick)
      /\ monitoring_start (self w') = monitoring_start (self sample_in_tick)
      /\ threads w' !! 0%nat = Some (Poll (poll_goto (In_sleep 50) sample_poll))
      /\ is_alive (Poll (poll_goto (In_sleep 50) sample_poll)) = true
      /\ threads (run sample_lib w' (poll_alone 0 sample_tick (50 + 2))) !! 0%nat
         = Some (Poll (mkPoll "elonmusk" 5 2 In_tick))).
Proof.
  assert (Hapi : api (self sample_in_tick) <> None) by (vm_compute; discriminate).
  split; [reflexivity|]. split; [reflexivity|]. split; [exact Hapi|].
  split; [left; reflexivity|]. split; [reflexivity|].
  destruct (poll_fetch_failure sample_lib 0 sample_tick_failing sample_tick
              sample_poll sample_in_tick "429 Too Many Requests")
    as (H1 & H2 & H3 & H4 & H5 & H6 & H7 & H8);
    [reflexivity|reflexivity|exact Hapi|left; reflexivity|].
  repeat (split; [assumption|]). apply H8. reflexivity.
Defined.



Lemma one_range_worker_witness :
  let w := run sample_lib (MonitorGUI_init sample_getenv)
               [Click_start sample_start; Click_count_range] in
  range_in_flight w 1
  /\ range_in_flight w 1
  /\ (1%nat = 1%nat
      /\ threads (count_range sample_lib w) = threads w
      /\ _range_thread (self (count_range sample_lib w)) = Some 1%nat
      /\ _q (self (count_range sample_lib w)) = _q (self w)).
Proof.
  assert (Hfl : range_in_flight
                  (run sample_lib (MonitorGUI_init sample_getenv)
                       [Click_start sample_start; Click_count_range]) 1).
  { exists (mkRange (9 * 3600000000) (18 * 3600000000) true).
    split; reflexivity. }
  cbv zeta. split; [exact Hfl|]. split; [exact Hfl|].
  apply (one_range_worker sample_lib sample_getenv
           [Click_start sample_start; Click_count_range] 1 1 Hfl Hfl).
Defined.




Lemma range_count_exact_witness :
  StronglySorted newer sample_history
  /\ (0 < 2)%nat
  /\ (length sample_history < 5)%nat
  /\ api (self sample_running) <> None
  /\ truthy (user_id (self sample_running)) = true
  /\ parse_dt sample_lib (range_start_var (ui (self sample_running)))
     = Some (9 * 3600000000)
  /\ parse_dt sample_lib (range_end_var (ui (self sample_running)))
     = Some (18 * 3600000000)
  /\ 9 * 3600000000 < 18 * 3600000000
  /\ range_busy sample_running = false
  /\ (let a := 9 * 3600000000 in
      let b := 18 * 3600000000 in
      let n := Z.of_nat (length (filter (fun t => a <= created_at t <= b)
                                        sample_history)) in
      let tid := length (threads sample_running) in
      let w1 := count_range sample_lib sample_running in
      let w2 := worker_returns sample_lib w1 tid
                  (count_tweets_in_range 5 (simulated_source sample_history 2) a b) in
      count_tweets_in_range 5 (simulated_source sample_history 2) a b
        = Some (inr n)
      /\ (Forall (fun t => ~ a <= created_at t <= b) sample_history -> n = 0)
      /\ (Forall (fun t => a <= created_at t <= b) sample_history
          -> n = Z.of_nat (length sample_history))
      /\ threads w1 = threads sample_running ++ [Range (mkRange a b true)]
      /\ _q (self w1) = _q (self sample_running)
      /\ _q (self w2) = _q (self sample_running) ++ [MsgRange n]
      /\ threads w2 !! tid = Some (Range (mkRange a b false))
      /\ step sample_lib w2 (Range_thread_returns tid (inl "late")) = w2).
Proof.
  assert (Hsorted : StronglySorted newer sample_history).
  { unfold sample_history. repeat constructor. }
  assert (Hapi : api (self sample_running) <> None) by (vm_compute; discriminate).
  split; [exact Hsorted|]. split; [lia|]. split; [cbn; lia|].
  split; [exact Hapi|]. split; [reflexivity|]. split; [reflexivity|].
  split; [reflexivity|]. split; [lia|]. split; [reflexivity|].
  apply (range_count_exact sample_lib sample_running sample_history 2 5
           (9 * 3600000000) (18 * 3600000000) (inl "late") Hsorted);
    [lia|cbn; lia|exact Hapi|reflexivity|reflexivity|reflexivity|lia|reflexivity].
Defined.


(** * The further properties at work on sample data *)

Lemma parse_dt_blank_witness :
  string_all isspace "   " = true /\ parse_dt sample_lib "   " = None.
Proof.
  split; [reflexivity|]. apply (parse_dt_blank sample_lib "   "). reflexivity.
Defined.

Lemma parse_dt_ignores_blanks_witness :
  string_all isspace " " = true
  /\ string_all isspace "  " = true
  /\ parse_dt sample_lib
       (String.append " " (String.append "2026-01-26 09:00" "  "))
     = parse_dt sample_lib "2026-01-26 09:00".
Proof.
  split; [reflexivity|]. split; [reflexivity|].
  apply (parse_dt_ignores_blanks sample_lib " " "2026-01-26 09:00" "  ");
    reflexivity.
Defined.

Lemma threads_persist_witness :
  threads sample_in_tick !! 0%nat = Some (Poll sample_poll)
  /\ exists t',
       threads (step sample_lib sample_in_tick (Poll_thread_runs 0 sample_tick))
         !! 0%nat = Some t'
       /\ thread_succ (Poll sample_poll) t'.
Proof.
  split; [reflexivity|].
  apply (threads_persist sample_lib sample_in_tick
           (Poll_thread_runs 0 sample_tick) 0 (Poll sample_poll)).
  reflexivity.
Defined.

Lemma poll_interval_floor_witness :
  threads (run sample_lib (MonitorGUI_init sample_getenv)
               [Click_start sample_start]) !! 0%nat
  = Some (Poll (mkPoll "elonmusk" 5 0 At_assert))
  /\ (5 <= poll_interval (mkPoll "elonmusk" 5 0 At_assert)
      /\ (50 <= Z.to_nat (poll_interval (mkPoll "elonmusk" 5 0 At_assert) * 10))%nat).
Proof.
  split; [reflexivity|].
  apply (poll_interval_floor sample_lib sample_getenv [Click_start sample_start] 0).
  reflexivity.
Defined.

Lemma range_worker_valid_witness :
  threads (run sample_lib (MonitorGUI_init sample_getenv)
               [Click_start sample_start; Click_count_range]) !! 1%nat
  = Some (Range (mkRange (9 * 3600000000) (18 * 3600000000) true))
  /\ worker_start (mkRange (9 * 3600000000) (18 * 3600000000) true)
     < worker_end (mkRange (9 * 3600000000) (18 * 3600000000) true).
Proof.
  split; [reflexivity|].
  apply (range_worker_valid sample_lib sample_getenv
           [Click_start sample_start; Click_count_range] 1).
  reflexivity.
Defined.

Lemma start_success_witness :
  running (self sample_idle) = false
  /\ lstrip_char "@" (strip (username_var (ui (self sample_idle)))) <> ""
  /\ int_of_str (str_or (strip (interval_var (ui (self sample_idle)))) "60") = Some 5
  /\ new_api sample_start = inr (mkAPI true)
  /\ start_user_info sample_start = inr (Some sample_info)
  /\ truthy (resolved_id (inr (Some sample_info))) = true
  /\ (let w' := start sample_start sample_idle in
      let username :=
        lstrip_char "@" (strip (username_var (ui (self sample_idle)))) in
      running (self w') = true
      /\ api (self w') = Some (mkAPI true)
      /\ user_id (self w') = resolved_id (inr (Some sample_info))
      /\ monitoring_start (self w') = Some (start_now sample_start)
      /\ _tweet_ids (self w') = ∅
      /\ range_count (self w') = None
      /\ threads w'
         = threads sample_idle ++ [Poll (mkPoll username (Z.max 5 5) 0 At_assert)]
      /\ _poll_thread (self w') = Some (length (threads sample_idle))
      /\ _q (self w') = _q (self sample_idle)
      /\ dialogs w' = dialogs sample_idle
      /\ log (ui (self w')) = log (ui (self sample_idle)) ++ [Log_connected username]
      /\ mode_var (ui (self w'))
         = (if demo_mode (mkAPI true) then Mode_demo else Mode_live)
      /\ range_var (ui (self w')) = range_var (ui (self sample_idle))).
Proof.
  assert (Hname : lstrip_char "@" (strip (username_var (ui (self sample_idle)))) <> "")
    by (vm_compute; discriminate).
  split; [reflexivity|]. split; [exact Hname|]. split; [reflexivity|].
  split; [reflexivity|]. split; [reflexivity|]. split; [reflexivity|].
  apply (start_success sample_start sample_idle 5 (mkAPI true) (Some sample_info));
    [reflexivity|exact Hname|reflexivity|reflexivity|reflexivity|reflexivity].
Defined.

Lemma running_has_session_witness :
  let w := run sample_lib (MonitorGUI_init sample_getenv)
               [Click_start sample_start] in
  running (self w) = true
  /\ (api (self w) <> None
      /\ truthy (user_id (self w)) = true
      /\ monitoring_start (self w) <> None
      /\ (exists tid p, _poll_thread (self w) = Some tid
                        /\ threads w !! tid = Some (Poll p))
      /\ dialogs (count_range sample_lib w)
         <> dialogs w ++ [showinfo "Not running"
                            "Start monitoring first (so we know the user id)."]).
Proof.
  cbv zeta. split; [reflexivity|].
  apply (running_has_session sample_lib sample_getenv [Click_start sample_start]).
  reflexivity.
Defined.

Lemma poll_returns_after_stop_witness :
  threads (stop sample_in_tick) !! 0%nat = Some (Poll sample_poll)
  /\ running (self (stop sample_in_tick)) = false
  /\ (let w' := run sample_lib (stop sample_in_tick) (poll_alone 0 sample_tick 3) in
      (exists p', threads w' !! 0%nat = Some (Poll p')
                  /\ poll_at p' = Poll_returned)
      /\ running (self w') = false
      /\ (length (_q (self w')) <= length (_q (self (stop sample_in_tick))) + 1)%nat).
Proof.
  split; [reflexivity|]. split; [reflexivity|].
  apply (poll_returns_after_stop sample_lib 0 sample_tick sample_poll
           (stop sample_in_tick)); reflexivity.
Defined.

Lemma restart_leaves_two_loops_witness :
  threads sample_sleeping !! 0%nat = Some (Poll (poll_goto (In_sleep 50) sample_poll))
  /\ poll_at (poll_goto (In_sleep 50) sample_poll) = In_sleep 50
  /\ running (self sample_sleeping) = true
  /\ running (self (start sample_start (stop sample_sleeping))) = true
  /\ (let p := poll_goto (In_sleep 50) sample_poll in
      let w' := start sample_start (stop sample_sleeping) in
      let tid' := length (threads sample_sleeping) in
      0%nat <> tid'
      /\ threads w' !! 0%nat = Some (Poll p)
      /\ (exists p', threads w' !! tid' = Some (Poll p')
                     /\ is_alive (Poll p') = true)
      /\ is_alive (Poll p) = true
      /\ _tweet_ids (self w') = ∅
      /\ threads (run sample_lib w' (poll_alone 0 sample_tick (50 + 2))) !! 0%nat
         = Some (Poll (mkPoll (poll_username p) (poll_interval p)
                              (poll_cycle p + 1) In_tick))).
Proof.
  split; [reflexivity|]. split; [reflexivity|]. split; [reflexivity|].
  split; [reflexivity|].
  apply (restart_leaves_two_loops sample_lib 0 50 sample_start sample_tick
           (poll_goto (In_sleep 50) sample_poll) sample_sleeping);
    reflexivity.
Defined.


Lemma first_poll_all_new_witness :
  let ids : gset string := {[ "999" ]} in
  NoDup (id <$> sample_tweets)
  /\ (forall t, t ∈ sample_tweets -> id t ∉ ids)
  /\ (observe ids sample_tweets
      = (sample_tweets, ids ∪ list_to_set (id <$> sample_tweets))
      /\ observe ∅ sample_tweets
         = (sample_tweets, list_to_set (id <$> sample_tweets))).
Proof.
  assert (Hnd : NoDup (id <$> sample_tweets)).
  { apply (bool_decide_unpack _). reflexivity. }
  assert (Hfresh : forall t, t ∈ sample_tweets -> id t ∉ ({[ "999" ]} : gset string)).
  { intros t Ht. apply not_elem_of_singleton.
    repeat (apply elem_of_cons in Ht as [->|Ht]; [discriminate|]).
    by apply elem_of_nil in Ht. }
  cbv zeta. split; [exact Hnd|]. split; [exact Hfresh|].
  apply (first_poll_all_new {[ "999" ]} sample_tweets Hnd Hfresh).
Defined.

Lemma repoll_nothing_new_witness :
  let again := [sample_tweet "1002" 11] in
  (forall t', t' ∈ again -> id t' ∈ id <$> sample_tweets)
  /\ observe (observe ∅ sample_tweets).2 again
     = ([], (observe ∅ sample_tweets).2).
Proof.
  assert (Hsame : forall t', t' ∈ [sample_tweet "1002" 11] ->
                    id t' ∈ id <$> sample_tweets).
  { intros t' Ht'. apply elem_of_cons in Ht' as [->|Ht'].
    - apply list_elem_of_further, list_elem_of_here.
    - by apply elem_of_nil in Ht'. }
  cbv zeta. split; [exact Hsame|].
  apply (repoll_nothing_new ∅ sample_tweets [sample_tweet "1002" 11] Hsame).
Defined.

Lemma update_counts_ordered_witness :
  api (self sample_in_tick) <> None
  /\ monitoring_start (self sample_in_tick) = Some (8 * 3600000000)
  /\ recent_tweets sample_tick = inr sample_tweets
  /\ (if refresh_due (poll_cycle sample_poll) (poll_interval sample_poll)
      then user_info sample_tick = inr (Some sample_info)
      else Some sample_info = None)
  /\ exists new today period,
       _q (poll_try sample_tick sample_poll (self sample_in_tick))
       = _q (self sample_in_tick)
         ++ [MsgUpdate (tick_now sample_tick) sample_tweets new today period
                       (Some sample_info)]
       /\ 0 <= today <= Z.of_nat (length sample_tweets)
       /\ 0 <= period <= Z.of_nat (length sample_tweets)
       /\ (replace_midnight (tick_now sample_tick) <= 8 * 3600000000
           -> period <= today)
       /\ (8 * 3600000000 <= replace_midnight (tick_now sample_tick)
           -> today <= period).
Proof.
  assert (Hapi : api (self sample_in_tick) <> None) by (vm_compute; discriminate).
  split; [exact Hapi|]. split; [reflexivity|]. split; [reflexivity|].
  split; [reflexivity|].
  apply (update_counts_ordered sample_tick sample_poll (self sample_in_tick)
           sample_tweets (Some sample_info) (8 * 3600000000));
    [exact Hapi|reflexivity|reflexivity|reflexivity].
Defined.

Lemma refresh_policy_witness :
  5 <= 60
  /\ (let k := Z.max 1 (300 / 60) in
      refresh_due 1 60 = true
      /\ (refresh_due 7 60 = true <-> 7 = 1 \/ 7 mod k = 0)
      /\ 300 - 60 < k * 60 <= Z.max 300 60
      /\ (if 150 <? 60 then refresh_due 7 60 = true else 2 <= k)).
Proof.
  split; [lia|]. apply (refresh_policy 7 60). lia.
Defined.

Lemma count_range_blank_entry_witness :
  api (self sample_blank_range) <> None
  /\ truthy (user_id (self sample_blank_range)) = true
  /\ (string_all isspace (range_start_var (ui (self sample_blank_range))) = true
      \/ string_all isspace (range_end_var (ui (self sample_blank_range))) = true)
  /\ count_range sample_lib sample_blank_range
     = messagebox
         (showerror "Invalid range"
            "Enter start/end like '2026-01-26 09:00' and '2026-01-26 18:00'.")
         sample_blank_range.
Proof.
  assert (Hapi : api (self sample_blank_range) <> None)
    by (vm_compute; discriminate).
  split; [exact Hapi|]. split; [reflexivity|]. split; [left; reflexivity|].
  apply (count_range_blank_entry sample_lib sample_blank_range);
    [exact Hapi|reflexivity|left; reflexivity].
Defined.

Lemma busy_request_shows_earlier_count_witness :
  let r := mkRange (9 * 3600000000) (18 * 3600000000) true in
  api (self sample_counting) <> None
  /\ truthy (user_id (self sample_counting)) = true
  /\ parse_dt sample_lib (range_start_var (ui (self sample_counting)))
     = Some (9 * 3600000000)
  /\ parse_dt sample_lib (range_end_var (ui (self sample_counting)))
     = Some (18 * 3600000000)
  /\ 9 * 3600000000 < 18 * 3600000000
  /\ _range_thread (self sample_counting) = Some 1%nat
  /\ threads sample_counting !! 1%nat = Some (Range r)
  /\ worker_alive r = true
  /\ (let w1 := count_range sample_lib sample_counting in
      let w2 := step sample_lib w1 (Range_thread_returns 1 (inr 2)) in
      let w3 := step sample_lib w2 After_drain_queue in
      threads w1 = threads sample_counting
      /\ dialogs w1 = dialogs sample_counting
      /\ range_var (ui (self w1)) = Range_dots
      /\ log (ui (self w1))
         = log (ui (self sample_counting))
           ++ [Log_counting (9 * 3600000000) (18 * 3600000000)]
      /\ threads w2 !! 1%nat
         = Some (Range (mkRange (worker_start r) (worker_end r) false))
      /\ range_var (ui (self w3)) = Range_value (Some 2)
      /\ range_count (self w3) = Some 2).
Proof.
  assert (Hapi : api (self sample_counting) <> None) by (vm_compute; discriminate).
  cbv zeta. split; [exact Hapi|]. split; [reflexivity|]. split; [reflexivity|].
  split; [reflexivity|]. split; [lia|]. split; [reflexivity|].
  split; [reflexivity|]. split; [reflexivity|].
  apply (busy_request_shows_earlier_count sample_lib sample_counting 1
           (mkRange (9 * 3600000000) (18 * 3600000000) true)
           (9 * 3600000000) (18 * 3600000000) 2);
    [exact Hapi|reflexivity|reflexivity|reflexivity|lia|reflexivity|reflexivity
    |reflexivity].
Defined.

Lemma range_count_round_trip_witness :
  api (self sample_running) <> None
  /\ truthy (user_id (self sample_running)) = true
  /\ parse_dt sample_lib (range_start_var (ui (self sample_running)))
     = Some (9 * 3600000000)
  /\ parse_dt sample_lib (range_end_var (ui (self sample_running)))
     = Some (18 * 3600000000)
  /\ 9 * 3600000000 < 18 * 3600000000
  /\ range_busy sample_running = false
  /\ (let w1 := count_range sample_lib sample_running in
      let w2 := step sample_lib w1
                  (Range_thread_returns (length (threads sample_running)) (inr 2)) in
      let w3 := step sample_lib w2 After_drain_queue in
      range_var (ui (self w1)) = Range_dots
      /\ range_count (self w3) = Some 2
      /\ range_var (ui (self w3)) = Range_value (Some 2)
      /\ last (log (ui (self w3))) = Some (Log_range_count (Some 2))
      /\ _q (self w3) = []
      /\ range_busy w3 = false).
Proof.
  assert (Hapi : api (self sample_running) <> None) by (vm_compute; discriminate).
  split; [exact Hapi|]. split; [reflexivity|]. split; [reflexivity|].
  split; [reflexivity|]. split; [lia|]. split; [reflexivity|].
  apply (range_count_round_trip sample_lib sample_running
           (9 * 3600000000) (18 * 3600000000) 2);
    [exact Hapi|reflexivity|reflexivity|reflexivity|lia|reflexivity].
Defined.

Lemma range_count_failure_witness :
  api (self sample_running) <> None
  /\ truthy (user_id (self sample_running)) = true
  /\ parse_dt sample_lib (range_start_var (ui (self sample_running)))
     = Some (9 * 3600000000)
  /\ parse_dt sample_lib (range_end_var (ui (self sample_running)))
     = Some (18 * 3600000000)
  /\ 9 * 3600000000 < 18 * 3600000000
  /\ range_busy sample_running = false
  /\ Forall not_range (_q (self sample_running))
  /\ (let w1 := count_range sample_lib sample_running in
      let w2 := step sample_lib w1
                  (Range_thread_returns (length (threads sample_running))
                                        (inl "503 Service Unavailable")) in
      let w3 := step sample_lib w2 After_drain_queue in
      _q (self w2)
      = _q (self sample_running) ++ [MsgError "503 Service Unavailable"]
      /\ range_var (ui (self w3)) = Range_dots
      /\ range_count (self w3) = range_count (self sample_running)
      /\ last (log (ui (self w3))) = Some (Log_error "503 Service Unavailable")
      /\ _q (self w3) = []).
Proof.
  assert (Hapi : api (self sample_running) <> None) by (vm_compute; discriminate).
  assert (Hq : Forall not_range (_q (self sample_running))) by constructor.
  split; [exact Hapi|]. split; [reflexivity|]. split; [reflexivity|].
  split; [reflexivity|]. split; [lia|]. split; [reflexivity|]. split; [exact Hq|].
  apply (range_count_failure sample_lib sample_running
           (9 * 3600000000) (18 * 3600000000) "503 Service Unavailable");
    [exact Hapi|reflexivity|reflexivity|reflexivity|lia|reflexivity|exact Hq].
Defined.

Lemma start_missing_username_witness :
  running (self sample_no_user) = false
  /\ string_all isspace " " = true
  /\ string_all (Ascii.eqb "@") "@@" = true
  /\ username_var (ui (self sample_no_user))
     = String.append " " (String.append "@@" " ")
  /\ start sample_start sample_no_user
     = messagebox (showerror "Missing username"
                             "Please enter a username to monitor.") sample_no_user.
Proof.
  split; [reflexivity|]. split; [reflexivity|]. split; [reflexivity|].
  split; [reflexivity|].
  apply (start_missing_username sample_start sample_no_user " " "@@" " ");
    reflexivity.
Defined.

Lemma dashboard_range_valid_witness :
  sample_Date "2026-01-26T18:00" = Some 200
  /\ sample_Date "2026-01-26T09:00" = Some 100
  /\ (let a := "2026-01-26T18:00" in
      let b := "2026-01-26T09:00" in
      let range := Dashboard.clampDateRange sample_Date a b in
      let shown := Dashboard.filteredTweets sample_Date range sample_feed in
      range = Some (if 100 <? 200 then (b, a) else (a, b))
      /\ (forall s e, range = Some (s, e) ->
            sample_Date s = Some (Z.min 200 100)
            /\ sample_Date e = Some (Z.max 200 100)
            /\ Dashboard.clampDateRange sample_Date s e = Some (s, e))
      /\ shown `sublist_of` sample_feed
      /\ (forall t, t ∈ shown <->
            t ∈ sample_feed
            /\ exists ms, sample_Date (Dashboard.createdAt t) = Some ms
                          /\ Z.min 200 100 <= ms <= Z.max 200 100)
      /\ Dashboard.filteredTweets sample_Date
           (Dashboard.clampDateRange sample_Date b a) sample_feed
         = shown).
Proof.
  split; [reflexivity|]. split; [reflexivity|].
  apply (dashboard_range_valid sample_Date "2026-01-26T18:00" "2026-01-26T09:00"
           200 100 sample_feed); reflexivity.
Defined.

Lemma dashboard_range_invalid_witness :
  (sample_Date "soon" = None \/ sample_Date "2026-01-26T09:00" = None)
  /\ (Dashboard.clampDateRange sample_Date "soon" "2026-01-26T09:00" = None
      /\ Dashboard.filteredTweets sample_Date
           (Dashboard.clampDateRange sample_Date "soon" "2026-01-26T09:00")
           sample_feed = []).
Proof.
  split; [left; reflexivity|].
  apply (dashboard_range_invalid sample_Date "soon" "2026-01-26T09:00" sample_feed).
  left; reflexivity.
Defined.

Lemma feed_after_arrivals_witness :
  let arrivals := [Some sample_arrival; None; Some sample_arrival] in
  (length sample_feed <= 50)%nat
  /\ (let feed := fold_left Dashboard.on_interval arrivals sample_feed in
      let arrived := omap (fun a => a) arrivals in
      feed = take 50 (rev arrived ++ sample_feed)
      /\ length feed = Nat.min 50 (length arrived + length sample_feed)
      /\ (forall t, last arrived = Some t -> head feed = Some t)).
Proof.
  cbv zeta. split; [cbn; lia|].
  apply (feed_after_arrivals sample_feed
           [Some sample_arrival; None; Some sample_arrival]).
  cbn; lia.
Defined.

Lemma toLocalInputValue_format_witness :
  1000 <= 2026 <= 9999
  /\ 0 <= 0 <= 11
  /\ 1 <= 26 <= 31
  /\ 0 <= 9 <= 23
  /\ 0 <= 5 <= 59
  /\ (let v := Dashboard.toLocalInputValue 2026 0 26 9 5 in
      String.length v = 16%nat
      /\ String.get 4 v = Some "-"%char
      /\ String.get 7 v = Some "-"%char
      /\ String.get 10 v = Some "T"%char
      /\ String.get 13 v = Some ":"%char
      /\ String.substring 0 4 v = pretty 2026
      /\ String.substring 5 2 v = Dashboard.pad (0 + 1)
      /\ String.substring 8 2 v = Dashboard.pad 26
      /\ String.substring 11 2 v = Dashboard.pad 9
      /\ String.substring 14 2 v = Dashboard.pad 5).
Proof.
  split; [lia|]. split; [lia|]. split; [lia|]. split; [lia|]. split; [lia|].
  apply (toLocalInputValue_format 2026 0 26 9 5); lia.
Defined.

Lemma tick_puts_one_event_witness :
  threads sample_in_tick !! 0%nat = Some (Poll sample_poll)
  /\ poll_at sample_poll = In_tick
  /\ exists m,
       _q (self (step sample_lib sample_in_tick
                      (Poll_thread_runs 0 sample_tick_failing)))
       = _q (self sample_in_tick) ++ [m]
       /\ (is_update m = true \/ exists err, m = MsgError err).
Proof.
  split; [reflexivity|]. split; [reflexivity|].
  apply (tick_puts_one_event sample_lib 0 sample_tick_failing sample_poll
           sample_in_tick); reflexivity.
Defined.
